(** * The manual model adapter (src/agents/models/manual.py)

    A shallow embedding of the manual inference backend: the context
    formatter, the interaction driver, the response builder and the two
    operations of [ManualModel], with the properties of its specification. *)

From Stdlib Require Import ZArith.
From stdpp Require Import base option strings list gmap.

Local Open Scope string_scope.
Local Open Scope Z_scope.
Local Open Scope list_scope.

(** ** Python values, as far as the adapter looks at them *)

(** The exceptions that can cross the adapter.  [AttributeError] records the
    class of the object and the attribute that was not found. *)
Inductive Exn : Type :=
| AttributeError (cls attr : string)
| TypeError (msg : string)
| EOFError
| CancelledError
| IndexError (msg : string).

(** A pure computation that may raise. *)
Inductive Res (A : Type) : Type :=
| Val (a : A)
| Err (e : Exn).
Arguments Val {A} a.
Arguments Err {A} e.

Definition res_bind {A B : Type} (r : Res A) (k : A -> Res B) : Res B :=
  match r with
  | Val a => k a
  | Err e => Err e
  end.

(** The value of an attribute of a tool or handoff object: the adapter reads
    names and descriptions, which are [str] or [None]. *)
Inductive PyVal : Type :=
| VNone
| VStr (s : string).

(** A tool or handoff object: its class and its instance attributes. *)
Record PyObject : Type := mkObject {
  class_name : string;
  attrs : gmap string PyVal
}.

(** [bool(v)]: [None] and the empty string are false. *)
Definition truthy (v : PyVal) : bool :=
  match v with
  | VNone => false
  | VStr s => negb (String.eqb s "")
  end.

(** [a or b]. *)
Definition py_or (a b : PyVal) : PyVal := if truthy a then a else b.

(** [str(v)], what an f-string substitutes for [{v}]. *)
Definition py_str (v : PyVal) : string :=
  match v with
  | VNone => "None"
  | VStr s => s
  end.

(** [getattr(o, a, d)]: never raises. *)
Definition getattr_default (o : PyObject) (a : string) (d : PyVal) : PyVal :=
  default d (attrs o !! a).

(** [o.a]: raises [AttributeError] when the attribute is missing. *)
Definition getattr (o : PyObject) (a : string) : Res PyVal :=
  match attrs o !! a with
  | Some v => Val v
  | None => Err (AttributeError (class_name o) a)
  end.

(** ** Context formatter *)

Definition _tool_name (tool : PyObject) : PyVal :=
  getattr_default tool "name" (VStr (class_name tool)).

Definition _tool_description (tool : PyObject) : PyVal :=
  py_or (getattr_default tool "description" VNone)
        (getattr_default tool "tool_description" VNone).

(** One turn of the loop of [_format_tools]. *)
Definition format_tool_step (formatted : list string) (tool : PyObject) : list string :=
  let name := _tool_name tool in
  let description := _tool_description tool in
  if truthy description
  then formatted ++ ["  - " +:+ py_str name +:+ ": " +:+ py_str description]
  else formatted ++ ["  - " +:+ py_str name].

Definition _format_tools (tools : list PyObject) : list string :=
  foldl format_tool_step [] tools.

(** One turn of the loop of [_format_handoffs]; the three attributes are read
    with plain attribute access, in the order the source evaluates them. *)
Definition format_handoff_step (formatted : list string) (handoff : PyObject)
  : Res (list string) :=
  res_bind (getattr handoff "tool_description") (fun description =>
  if truthy description
  then
    res_bind (getattr handoff "agent_name") (fun agent_name =>
    res_bind (getattr handoff "tool_name") (fun tool_name =>
    Val (formatted ++ ["  - " +:+ py_str agent_name +:+ " via `" +:+ py_str tool_name
                       +:+ "`: " +:+ py_str description])))
  else
    res_bind (getattr handoff "agent_name") (fun agent_name =>
    res_bind (getattr handoff "tool_name") (fun tool_name =>
    Val (formatted ++ ["  - " +:+ py_str agent_name +:+ " via `" +:+ py_str tool_name
                       +:+ "`"])))).

Definition _format_handoffs (handoffs : list PyObject) : Res (list string) :=
  foldl (fun acc handoff => res_bind acc (fun formatted => format_handoff_step formatted handoff))
        (Val []) handoffs.

(** The tool and the handoff of the repository's test. *)
Definition test_tool : PyObject :=
  mkObject "FunctionTool"
    (<["name" := VStr "test_tool"]> (<["description" := VStr "A simple helper."]> ∅)).

Definition test_handoff : PyObject :=
  mkObject "Handoff"
    (<["tool_name" := VStr "transfer_to_helper"]>
     (<["tool_description" := VStr "Transfer to helper agent."]>
      (<["agent_name" := VStr "Helper"]> ∅))).

(** ** The machine: object store, console, and the calls to the callbacks *)

(** Conversation input lives in the object store: a list object holds
    references to item objects (dicts).  A location is an index of the store;
    allocation appends. *)
Definition loc : Type := nat.

Inductive HVal : Type :=
| HStr (s : string)
| HRef (l : loc).

Inductive Cell : Type :=
| CList (elems : list HVal)
| CDict (entries : list (string * HVal)).

Record Mem : Type := mkMem {
  heap : list Cell;
  stdin : list string;
  stdout : list string
}.

Inductive Outcome (S A : Type) : Type :=
| Returned (a : A) (s : S)
| Raised (e : Exn) (s : S).
Arguments Returned {S A} a s.
Arguments Raised {S A} e s.

Definition final {S A : Type} (o : Outcome S A) : S :=
  match o with
  | Returned _ s => s
  | Raised _ s => s
  end.

(** Code of the caller or of the host: it may do anything to the memory. *)
Definition Callback (A : Type) : Type := Mem -> Outcome Mem A.

(** What the adapter asked of its callbacks, in order (a ghost history: the
    callbacks cannot touch it). *)
Inductive Event : Type :=
| EvPrint (line : string)
| EvProvider.

Record State : Type := mkState {
  mem : Mem;
  trace : list Event
}.

(** The adapter's own code: state and exceptions. *)
Definition M (A : Type) : Type := State -> Outcome State A.

#[export] Instance M_ret : MRet M := fun A a st => Returned a st.

#[export] Instance M_bind : MBind M := fun A B k c st =>
  match c st with
  | Returned a st' => k a st'
  | Raised e st' => Raised e st'
  end.

(** A call that the history does not record. *)
Definition lift {A : Type} (f : Callback A) : M A := fun st =>
  match f (mem st) with
  | Returned a m' => Returned a (mkState m' (trace st))
  | Raised e m' => Raised e (mkState m' (trace st))
  end.

(** A call to a callback: recorded, then run. *)
Definition call {A : Type} (ev : Event) (f : Callback A) : M A := fun st =>
  let tr := trace st ++ [ev] in
  match f (mem st) with
  | Returned a m' => Returned a (mkState m' tr)
  | Raised e m' => Raised e (mkState m' tr)
  end.

(** [print_fn(line)]. *)
Definition call_print_fn (print_fn : string -> Callback unit) (line : string) : M unit :=
  call (EvPrint line) (print_fn line).

Definition lift_res {A : Type} (r : Res A) : M A := fun st =>
  match r with
  | Val a => Returned a st
  | Err e => Raised e st
  end.

Definition get_heap : M (list Cell) := fun st => Returned (heap (mem st)) st.

(** [for x in xs: body(x)]. *)
Fixpoint for_each {A : Type} (xs : list A) (body : A -> M unit) : M unit :=
  match xs with
  | [] => mret tt
  | x :: rest => body x ;; for_each rest body
  end.

(** The built-in [print] and [input] on the console. *)
Definition newline : string := String (Ascii.ascii_of_nat 10) "".

Definition py_print (line : string) : Callback unit := fun m =>
  Returned tt (mkMem (heap m) (stdin m) (stdout m ++ [line +:+ newline])).

Definition py_input (prompt : string) : Callback string := fun m =>
  let out := stdout m ++ [prompt] in
  match stdin m with
  | line :: rest => Returned line (mkMem (heap m) rest out)
  | [] => Raised EOFError (mkMem (heap m) [] out)
  end.

(** ** The host framework's collaborators *)

Inductive Input : Type :=
| InStr (s : string)
| InList (l : loc).

(** What manual.py imports and calls but does not define:
    [ItemHelpers.input_to_new_input_list] of the host framework and
    [pprint.pformat].  The first may raise and may allocate; the second reads
    the object it is given. *)
Class Host : Type := {
  input_to_new_input_list : Input -> Callback loc;
  pformat : list Cell -> loc -> string
}.

(** ** Interaction driver *)

(** [if system_instructions:] on a [str | None]. *)
Definition str_truthy (s : option string) : bool :=
  match s with
  | Some t => negb (String.eqb t "")
  | None => false
  end.

Definition _default_response_provider : Callback string :=
  py_input "Manual response: ".

(** [response_provider or _default_response_provider]: a function object is
    true, so the injected provider is taken whenever one was given. *)
Definition chosen_provider (response_provider : option (Callback string)) : Callback string :=
  default _default_response_provider response_provider.

Section Driver.
Context `{Host}.

Definition manual_prompt_interaction
    (system_instructions : option string) (input : Input)
    (tools handoffs : list PyObject) (prompt : option loc)
    (print_fn : string -> Callback unit)
    (response_provider : option (Callback string)) : M string :=
  let say := call_print_fn print_fn in
  normalized_input ← lift (input_to_new_input_list input);
  say "=== Manual model interaction ===" ;;
  (if str_truthy system_instructions
   then say "System instructions:" ;; say (default "" system_instructions)
   else say "System instructions: <none>") ;;
  say "Conversation items:" ;;
  (h ← get_heap; say (pformat h normalized_input)) ;;
  match prompt with
  | Some p => say "Prompt configuration:" ;; (h ← get_heap; say (pformat h p))
  | None => mret tt
  end ;;
  match tools with
  | _ :: _ => say "Available tools:" ;; for_each (_format_tools tools) say
  | [] => say "Available tools: none"
  end ;;
  match handoffs with
  | _ :: _ =>
      say "Available handoffs:" ;;
      (lines ← lift_res (_format_handoffs handoffs); for_each lines say)
  | [] => say "Available handoffs: none"
  end ;;
  say "Provide the next assistant message." ;;
  let provider := chosen_provider response_provider in
  call EvProvider provider.

(** Lines 81 to 111 of [manual_prompt_interaction] on their own: all of it
    up to the choice of the provider.  The properties below use it to name
    the state in which the provider is called. *)
Definition show_context
    (system_instructions : option string) (input : Input)
    (tools handoffs : list PyObject) (prompt : option loc)
    (print_fn : string -> Callback unit) : M unit :=
  let say := call_print_fn print_fn in
  normalized_input ← lift (input_to_new_input_list input);
  say "=== Manual model interaction ===" ;;
  (if str_truthy system_instructions
   then say "System instructions:" ;; say (default "" system_instructions)
   else say "System instructions: <none>") ;;
  say "Conversation items:" ;;
  (h ← get_heap; say (pformat h normalized_input)) ;;
  match prompt with
  | Some p => say "Prompt configuration:" ;; (h ← get_heap; say (pformat h p))
  | None => mret tt
  end ;;
  match tools with
  | _ :: _ => say "Available tools:" ;; for_each (_format_tools tools) say
  | [] => say "Available tools: none"
  end ;;
  match handoffs with
  | _ :: _ =>
      say "Available handoffs:" ;;
      (lines ← lift_res (_format_handoffs handoffs); for_each lines say)
  | [] => say "Available handoffs: none"
  end ;;
  say "Provide the next assistant message.".
End Driver.

(** ** Response builder *)

Definition _RESPONSE_ID : string := "manual-response".
Definition _MESSAGE_ID : string := "manual-message".

Module ResponseOutputText.
Record t : Type := make {
  text : string;
  type : string;
  annotations : list string
}.
End ResponseOutputText.

Module ResponseOutputMessage.
Record t : Type := make {
  id : string;
  content : list ResponseOutputText.t;
  role : string;
  status : string;
  type : string
}.
End ResponseOutputMessage.

Module InputTokensDetails.
Record t : Type := make { cached_tokens : Z }.
End InputTokensDetails.

Module OutputTokensDetails.
Record t : Type := make { reasoning_tokens : Z }.
End OutputTokensDetails.

(** Modelled from the spec: the host framework's [Usage] record
    (agents/usage.py is not among the sources).  The spec's UsageStats has the
    counters input, output and total tokens, cached tokens and reasoning
    tokens; the repository's test also reads [requests].  [Usage()], the
    record with no argument given, has every counter zero. *)
Module Usage.
Record t : Type := make {
  requests : Z;
  input_tokens : Z;
  input_tokens_details : InputTokensDetails.t;
  output_tokens : Z;
  output_tokens_details : OutputTokensDetails.t;
  total_tokens : Z
}.
Definition new : t :=
  make 0 0 (InputTokensDetails.make 0) 0 (OutputTokensDetails.make 0) 0.
End Usage.

Module ResponseUsage.
Record t : Type := make {
  input_tokens : Z;
  output_tokens : Z;
  total_tokens : Z;
  input_tokens_details : InputTokensDetails.t;
  output_tokens_details : OutputTokensDetails.t
}.
End ResponseUsage.

Module Response.
Record t : Type := make {
  id : string;
  created_at : Z;
  model : string;
  object : string;
  output : list ResponseOutputMessage.t;
  tool_choice : string;
  tools : list PyObject;
  top_p : option Z;
  usage : option ResponseUsage.t;
  parallel_tool_calls : bool
}.
End Response.

Module ResponseCompletedEvent.
Record t : Type := make {
  type : string;
  response : Response.t;
  sequence_number : Z
}.
End ResponseCompletedEvent.

Module ModelResponse.
Record t : Type := make {
  output : list ResponseOutputMessage.t;
  usage : Usage.t;
  response_id : option string
}.
End ModelResponse.

Definition _build_output_message (text : string) : ResponseOutputMessage.t :=
  {| ResponseOutputMessage.id := _MESSAGE_ID;
     ResponseOutputMessage.content :=
       [ {| ResponseOutputText.text := text;
            ResponseOutputText.type := "output_text";
            ResponseOutputText.annotations := [] |} ];
     ResponseOutputMessage.role := "assistant";
     ResponseOutputMessage.status := "completed";
     ResponseOutputMessage.type := "message" |}.

Definition _usage_to_response_usage (usage : Usage.t) : ResponseUsage.t :=
  {| ResponseUsage.input_tokens := Usage.input_tokens usage;
     ResponseUsage.output_tokens := Usage.output_tokens usage;
     ResponseUsage.total_tokens := Usage.total_tokens usage;
     ResponseUsage.input_tokens_details :=
       InputTokensDetails.make
         (InputTokensDetails.cached_tokens (Usage.input_tokens_details usage));
     ResponseUsage.output_tokens_details :=
       OutputTokensDetails.make
         (OutputTokensDetails.reasoning_tokens (Usage.output_tokens_details usage)) |}.

Definition _build_completed_event (message : ResponseOutputMessage.t) (usage : Usage.t)
  : ResponseCompletedEvent.t :=
  let response :=
    {| Response.id := _RESPONSE_ID;
       Response.created_at := 0;
       Response.model := "manual";
       Response.object := "response";
       Response.output := [message];
       Response.tool_choice := "none";
       Response.tools := [];
       Response.top_p := None;
       Response.usage := Some (_usage_to_response_usage usage);
       Response.parallel_tool_calls := false |} in
  {| ResponseCompletedEvent.type := "response.completed";
     ResponseCompletedEvent.response := response;
     ResponseCompletedEvent.sequence_number := 0 |}.

(** ** Model adapter *)

(** [ManualModel.__init__]: both arguments are optional in the source;
    [print_fn] defaults to [print], [response_provider] to [None]. *)
Record ManualModel : Type := mkManualModel {
  _print_fn : string -> Callback unit;
  _response_provider : option (Callback string)
}.

Definition ManualModel_init (print_fn : option (string -> Callback unit))
    (response_provider : option (Callback string)) : ManualModel :=
  mkManualModel (default py_print print_fn) response_provider.

(** The arguments of both operations.  [model_settings], [output_schema] and
    [tracing] are values of host types that both operations delete on entry,
    as they do [previous_response_id] and [conversation_id]. *)
Record CallArgs : Type := mkArgs {
  system_instructions : option string;
  input : Input;
  tools : list PyObject;
  handoffs : list PyObject;
  previous_response_id : option string;
  conversation_id : option string;
  prompt : option loc
}.

(** An asynchronous generator object: the frame of the call, and where its
    body stands.  Calling an [async def] with a [yield] in it builds the
    object and runs nothing; [__anext__] runs the body to its next [yield]. *)
Inductive GenState : Type :=
| GenCreated
| GenSuspended
| GenClosed.

Record AsyncGen : Type := mkGen {
  gen_self : ManualModel;
  gen_args : CallArgs;
  gen_state : GenState
}.

Inductive Step : Type :=
| Yielded (event : ResponseCompletedEvent.t)
| StopAsyncIteration
| Threw (e : Exn).

Section Model.
Context `{Host}.

(** What a call of either operation shows before it asks for the reply. *)
Definition model_context (self : ManualModel) (args : CallArgs) : M unit :=
  show_context
    (system_instructions args) (input args) (tools args) (handoffs args) (prompt args)
    (_print_fn self).

Definition get_response (self : ManualModel) (args : CallArgs) : M ModelResponse.t :=
  response_text ← manual_prompt_interaction
    (system_instructions args) (input args) (tools args) (handoffs args) (prompt args)
    (_print_fn self) (_response_provider self);
  let message := _build_output_message response_text in
  let usage := Usage.new in
  mret (ModelResponse.make [message] usage (Some _RESPONSE_ID)).

(** The body of [stream_response], from its first line to its [yield]. *)
Definition stream_response_body (self : ManualModel) (args : CallArgs)
  : M ResponseCompletedEvent.t :=
  response_text ← manual_prompt_interaction
    (system_instructions args) (input args) (tools args) (handoffs args) (prompt args)
    (_print_fn self) (_response_provider self);
  let message := _build_output_message response_text in
  let usage := Usage.new in
  mret (_build_completed_event message usage).

(** The call itself. *)
Definition stream_response (self : ManualModel) (args : CallArgs) : M AsyncGen :=
  mret (mkGen self args GenCreated).

(** [await gen.__anext__()].  After the single [yield] the body ends at
    once; a body that raised leaves the generator closed. *)
Definition anext (gen : AsyncGen) (st : State) : Step * AsyncGen * State :=
  let at_state (s : GenState) := mkGen (gen_self gen) (gen_args gen) s in
  match gen_state gen with
  | GenCreated =>
      match stream_response_body (gen_self gen) (gen_args gen) st with
      | Returned event st' => (Yielded event, at_state GenSuspended, st')
      | Raised e st' => (Threw e, at_state GenClosed, st')
      end
  | GenSuspended => (StopAsyncIteration, at_state GenClosed, st)
  | GenClosed => (StopAsyncIteration, gen, st)
  end.

(** [[event async for event in gen]]. *)
Fixpoint async_for (fuel : nat) (gen : AsyncGen) (events : list ResponseCompletedEvent.t)
    (st : State) : option (Outcome State (list ResponseCompletedEvent.t)) :=
  match fuel with
  | O => None
  | S fuel' =>
      match anext gen st with
      | (Yielded event, gen', st') => async_for fuel' gen' (events ++ [event]) st'
      | (StopAsyncIteration, _, st') => Some (Returned events st')
      | (Threw e, _, st') => Some (Raised e st')
      end
  end.
End Model.

(** ** A host to run the adapter against *)

Definition set_heap (m : Mem) (h : list Cell) : Mem := mkMem h (stdin m) (stdout m).

(** Modelled from the spec: [ItemHelpers.input_to_new_input_list]
    (agents/items.py is not among the sources).  The spec has normalization
    produce a canonical ordered sequence of items, a new one, from a single
    string or from an ordered sequence of items, and either succeed or raise.
    A string becomes a fresh one-item list holding a fresh item with that
    content (role "user", as the host framework reads a bare string); a list
    object becomes a fresh list object with the same items; anything that is
    not a list raises.  Nothing already in the store is written. *)
Definition ItemHelpers_input_to_new_input_list (input : Input) : Callback loc := fun m =>
  match input with
  | InStr s =>
      let item := length (heap m) in
      let h1 := heap m ++ [CDict [("content", HStr s); ("role", HStr "user")]] in
      Returned (S item) (set_heap m (h1 ++ [CList [HRef item]]))
  | InList l =>
      match heap m !! l with
      | Some (CList items) =>
          Returned (length (heap m)) (set_heap m (heap m ++ [CList items]))
      | _ => Raised (TypeError "input is not a list of items") m
      end
  end.

(** A stand-in for [pprint.pformat] on objects that fit one line: the [repr]
    of strings without quotes or backslashes inside, of dicts and of lists,
    followed through references to a bounded depth. *)
Definition join (sep : string) (parts : list string) : string :=
  match parts with
  | [] => ""
  | p :: rest => foldl (fun acc q => acc +:+ sep +:+ q) p rest
  end.

Definition quote (s : string) : string := "'" +:+ s +:+ "'".

Fixpoint repr_val (depth : nat) (h : list Cell) (v : HVal) : string :=
  match v with
  | HStr s => quote s
  | HRef l =>
      match depth with
      | O => "..."
      | S d =>
          match h !! l with
          | Some (CList elems) => "[" +:+ join ", " (map (repr_val d h) elems) +:+ "]"
          | Some (CDict entries) =>
              "{" +:+ join ", " (map (fun kv => quote (fst kv) +:+ ": " +:+ repr_val d h (snd kv))
                                     entries) +:+ "}"
          | None => "<dangling>"
          end
      end
  end.

Definition pformat_line (h : list Cell) (l : loc) : string := repr_val 4 h (HRef l).

Definition spec_host_with (dump : list Cell -> loc -> string) : Host :=
  {| input_to_new_input_list := ItemHelpers_input_to_new_input_list;
     pformat := dump |}.

Definition spec_host : Host := spec_host_with pformat_line.

(** ** The fixtures of tests/agents/models/test_manual_model.py *)

(** [printed.append], for the list object at [printed]. *)
Definition list_append (printed : loc) (line : string) : Callback unit := fun m =>
  match heap m !! printed with
  | Some (CList lines) =>
      Returned tt (set_heap m (<[printed := CList (lines ++ [HStr line])]> (heap m)))
  | _ => Raised (AttributeError "object" "append") m
  end.

(** [response_provider] of the tests: [return responses.pop(0)]. *)
Definition pop_response (responses : loc) : Callback string := fun m =>
  match heap m !! responses with
  | Some (CList (HStr reply :: rest)) =>
      Returned reply (set_heap m (<[responses := CList rest]> (heap m)))
  | Some (CList []) => Raised (IndexError "pop from empty list") m
  | _ => Raised (TypeError "responses holds no reply text") m
  end.

(** Both tests build the model over the list [printed], at location 0, and
    the list [responses], at location 1. *)
Definition test_model : ManualModel :=
  ManualModel_init (Some (list_append 0%nat)) (Some (pop_response 1%nat)).

Definition test_get_state : State :=
  mkState (mkMem [CList []; CList [HStr "Manual reply"]] [] []) [].

Definition test_get_args : CallArgs :=
  mkArgs (Some "Be concise.") (InStr "Hello") [test_tool] [test_handoff] None None None.

(** The streaming test passes [[{"role": "user", "content": "Ping"}]]: the
    item at location 2, the list at location 3. *)
Definition test_stream_state : State :=
  mkState (mkMem [CList []; CList [HStr "Streamed manual response"];
                  CDict [("role", HStr "user"); ("content", HStr "Ping")];
                  CList [HRef 2%nat]] [] []) [].

Definition test_stream_args : CallArgs :=
  mkArgs None (InList 3%nat) [] [] None None None.

(** The states of the first test when the context has been shown and when
    the reply has been given, and those of the streaming test. *)
Definition test_get_shown : State :=
  final (@model_context spec_host test_model test_get_args test_get_state).

Definition test_get_replied : Mem :=
  final (pop_response 1%nat (mem test_get_shown)).

Definition test_stream_shown : State :=
  final (@model_context spec_host test_model test_stream_args test_stream_state).

Definition test_stream_replied : Mem :=
  final (pop_response 1%nat (mem test_stream_shown)).

Definition test_get_normalized : Mem :=
  final (ItemHelpers_input_to_new_input_list (InStr "Hello") (mem test_get_state)).

(** A call that passes the item itself where the list of items belongs. *)
Definition test_malformed_args : CallArgs :=
  mkArgs None (InList 2%nat) [] [] None None None.

(** A provider whose wait for the reply is cancelled, and the model of the
    tests over it. *)
Definition cancelled_provider : Callback string := fun m => Raised CancelledError m.

Definition test_cancelled_model : ManualModel :=
  ManualModel_init (Some (list_append 0%nat)) (Some cancelled_provider).

Definition test_cancelled_shown : State :=
  final (@model_context spec_host test_cancelled_model test_stream_args test_stream_state).

(** ** The specification's side *)

(** The lines handed to [print_fn], and the number of calls to the provider,
    read off a history. *)
Definition printed (tr : list Event) : list string :=
  omap (fun ev => match ev with EvPrint line => Some line | EvProvider => None end) tr.

Definition provider_calls (tr : list Event) : nat :=
  length (omap (fun ev => match ev with EvProvider => Some tt | EvPrint _ => None end) tr).

(** A field of a tool as the formatter takes it: a match is a field that is
    there and holds a text that is not empty. *)
Definition field_text (tool : PyObject) (field : string) : option string :=
  match attrs tool !! field with
  | Some (VStr s) => if String.eqb s "" then None else Some s
  | _ => None
  end.

(** The description, under two field names, the first match winning. *)
Definition display_description (tool : PyObject) : option string :=
  match field_text tool "description" with
  | Some d => Some d
  | None => field_text tool "tool_description"
  end.

(** The name attribute, or the type name when the attribute is absent. *)
Definition display_name (tool : PyObject) : string :=
  match attrs tool !! "name" with
  | Some v => py_str v
  | None => class_name tool
  end.

Definition display_line (tool : PyObject) : string :=
  match display_description tool with
  | Some d => "  - " +:+ display_name tool +:+ ": " +:+ d
  | None => "  - " +:+ display_name tool
  end.

(** A handoff that carries the three attributes the formatter reads. *)
Definition handoff_complete (handoff : PyObject) : bool :=
  bool_decide (is_Some (attrs handoff !! "tool_description"))
  && bool_decide (is_Some (attrs handoff !! "agent_name"))
  && bool_decide (is_Some (attrs handoff !! "tool_name")).

(** The line of a handoff that carries them: the description part is left
    out when the description is [None] or empty. *)
Definition handoff_display_line (handoff : PyObject) : string :=
  let agent_name := py_str (default VNone (attrs handoff !! "agent_name")) in
  let tool_name := py_str (default VNone (attrs handoff !! "tool_name")) in
  match field_text handoff "tool_description" with
  | Some d => "  - " +:+ agent_name +:+ " via `" +:+ tool_name +:+ "`: " +:+ d
  | None => "  - " +:+ agent_name +:+ " via `" +:+ tool_name +:+ "`"
  end.

(** A handoff object without its description, and one without its agent name. *)
Definition handoff_without_description : PyObject :=
  mkObject "Handoff"
    (<["tool_name" := VStr "transfer_to_helper"]> (<["agent_name" := VStr "Helper"]> ∅)).

Definition handoff_without_agent_name : PyObject :=
  mkObject "Handoff"
    (<["tool_name" := VStr "transfer_to_helper"]>
     (<["tool_description" := VStr "Transfer to helper agent."]> ∅)).

(** The sections of the transcript that do not depend on the instructions. *)
Definition items_section (items_dump : string) : list string :=
  ["Conversation items:"; items_dump].

Definition prompt_section (prompt_dump : option string) : list string :=
  match prompt_dump with
  | Some d => ["Prompt configuration:"; d]
  | None => []
  end.

Definition tools_section (tools : list PyObject) : list string :=
  match tools with
  | [] => ["Available tools: none"]
  | _ => "Available tools:" :: _format_tools tools
  end.

Definition handoffs_section (handoffs : list PyObject) (lines : list string) : list string :=
  match handoffs with
  | [] => ["Available handoffs: none"]
  | _ => "Available handoffs:" :: lines
  end.

(** The transcript in the words of the specification: the instructions
    section is the literal text when instructions are present. *)
Definition stated_transcript (system_instructions : option string)
    (items_dump : string) (prompt_dump : option string)
    (tools handoffs : list PyObject) (handoff_lines : list string) : list string :=
  ["=== Manual model interaction ==="]
  ++ match system_instructions with
     | Some t => [t]
     | None => ["System instructions: <none>"]
     end
  ++ items_section items_dump ++ prompt_section prompt_dump
  ++ tools_section tools ++ handoffs_section handoffs handoff_lines
  ++ ["Provide the next assistant message."].

(** The transcript with the instructions section as the driver writes it: a
    label line and then the text, when the text is there and not empty. *)
Definition instructions_section (system_instructions : option string) : list string :=
  match system_instructions with
  | Some t => if String.eqb t "" then ["System instructions: <none>"]
              else ["System instructions:"; t]
  | None => ["System instructions: <none>"]
  end.

Definition transcript (system_instructions : option string)
    (items_dump : string) (prompt_dump : option string)
    (tools handoffs : list PyObject) (handoff_lines : list string) : list string :=
  ["=== Manual model interaction ==="]
  ++ instructions_section system_instructions
  ++ items_section items_dump ++ prompt_section prompt_dump
  ++ tools_section tools ++ handoffs_section handoffs handoff_lines
  ++ ["Provide the next assistant message."].

(** What a property may ask of the caller's [print_fn]: that it returns in
    every memory of some kind [Inv], and keeps the memory of that kind (the
    built-in [print] returns in any memory; [printed.append] returns as long
    as [printed] is a list); and that it leaves the object store alone. *)
Definition returns_under (Inv : Mem -> Prop) (print_fn : string -> Callback unit) : Prop :=
  forall (line : string) (m : Mem),
    Inv m -> exists m', print_fn line m = Returned tt m' /\ Inv m'.

Definition heap_quiet (print_fn : string -> Callback unit) : Prop :=
  forall (line : string) (m : Mem), heap (final (print_fn line m)) = heap m.

(** A piece of the driver that, run in [st], hands [lines] to [print_fn] and
    nothing else to anyone, and returns in [st']. *)
Definition prints (Inv : Mem -> Prop) (print_fn : string -> Callback unit) (c : M unit)
    (st : State) (lines : list string) (st' : State) : Prop :=
  c st = Returned tt st'
  /\ trace st' = trace st ++ map EvPrint lines
  /\ Inv (mem st')
  /\ (heap_quiet print_fn -> heap (mem st') = heap (mem st)).

(** A piece of code keeps a relation between the state it starts in and the
    state it ends in, however it ends. *)
Definition keeps {A : Type} (R : relation State) (c : M A) : Prop :=
  forall st : State, R st (final (c st)).

(** The history grew by lines handed to [print_fn], and by nothing else. *)
Definition printed_more (st st' : State) : Prop :=
  exists lines, trace st' = trace st ++ map EvPrint lines.

(** The object at [l] is what it was. *)
Definition cell_kept (l : loc) (c : Cell) (st st' : State) : Prop :=
  heap (mem st) !! l = Some c -> heap (mem st') !! l = Some c.

(** A callback that leaves the object at [l] as it finds it. *)
Definition leaves_cell {A : Type} (l : loc) (c : Cell) (f : Callback A) : Prop :=
  forall m : Mem, heap m !! l = Some c -> heap (final (f m)) !! l = Some c.

(** The first of the three attributes, in the order [_format_handoffs] reads
    them, that a handoff object does not carry. *)
Definition first_missing_attribute (handoff : PyObject) : option string :=
  match attrs handoff !! "tool_description" with
  | None => Some "tool_description"
  | Some _ =>
      match attrs handoff !! "agent_name" with
      | None => Some "agent_name"
      | Some _ =>
          match attrs handoff !! "tool_name" with
          | None => Some "tool_name"
          | Some _ => None
          end
      end
  end.

(** The line of one handoff, or the exception reading it raises. *)
Definition handoff_line (handoff : PyObject) : Res string :=
  match first_missing_attribute handoff with
  | Some attr => Err (AttributeError (class_name handoff) attr)
  | None => Val (handoff_display_line handoff)
  end.

(** A model whose [print_fn] appends to what is no list (the item at
    location 2 of the streaming test), and the state its first line leaves. *)
Definition test_broken_print_model : ManualModel :=
  ManualModel_init (Some (list_append 2%nat)) (Some (pop_response 1%nat)).

Definition test_broken_print_shown : State :=
  final (@model_context spec_host test_broken_print_model test_stream_args
           test_stream_state).

(** The history grew, by whatever calls. *)
Definition history_grows (st st' : State) : Prop :=
  exists events, trace st' = trace st ++ events.

(** How [print] writes a line, and what a run over the built-in [print]
    does to the console: the lines handed out are the lines written, and
    nothing is read. *)
Definition console_line (line : string) : string := line +:+ newline.

Definition on_console (st st' : State) : Prop :=
  exists lines,
    trace st' = trace st ++ map EvPrint lines
    /\ stdout (mem st') = stdout (mem st) ++ map console_line lines
    /\ stdin (mem st') = stdin (mem st).

(** A callback that neither reads nor writes the console. *)
Definition leaves_console {A : Type} (f : Callback A) : Prop :=
  forall m : Mem, stdin (final (f m)) = stdin m /\ stdout (final (f m)) = stdout m.

(** A call from the console: the item at location 0, the list at location 1,
    and one line waiting on standard input. *)
Definition test_console_state : State :=
  mkState (mkMem [CDict [("role", HStr "user"); ("content", HStr "Ping")];
                  CList [HRef 0%nat]]
                 ["Typed reply"] []) [].

Definition test_console_args : CallArgs :=
  mkArgs None (InList 1%nat) [test_tool] [] None None None.

Definition test_console_shown : State :=
  final (@model_context spec_host (ManualModel_init None None) test_console_args
           test_console_state).




(** * Properties *)

(** ** Context formatter *)

Example format_tools_test : _format_tools [test_tool] = ["  - test_tool: A simple helper."].
Proof. vm_compute. reflexivity. Qed.

Example format_handoffs_test :
  _format_handoffs [test_handoff]
  = Val ["  - Helper via `transfer_to_helper`: Transfer to helper agent."].
Proof. vm_compute. reflexivity. Qed.

Lemma truthy_field_text (tool : PyObject) (field : string) :
  let v := getattr_default tool field VNone in
  (truthy v = true /\ field_text tool field = Some (py_str v))
  \/ (truthy v = false /\ field_text tool field = None).
Proof.
  unfold getattr_default, field_text.
  destruct (attrs tool !! field) as [[|s]|]; simpl; auto.
  destruct (String.eqb s ""); simpl; auto.
Qed.

Lemma format_tool_step_line (formatted : list string) (tool : PyObject) :
  format_tool_step formatted tool = formatted ++ [display_line tool].
Proof.
  unfold format_tool_step, display_line, display_description, _tool_description, py_or.
  assert (Hname : py_str (_tool_name tool) = display_name tool).
  { unfold _tool_name, display_name, getattr_default.
    destruct (attrs tool !! "name"); reflexivity. }
  rewrite Hname.
  destruct (truthy_field_text tool "description") as [[Ht Hf]|[Ht Hf]];
    rewrite Ht, Hf; [rewrite Ht; reflexivity|].
  destruct (truthy_field_text tool "tool_description") as [[Ht' Hf']|[Ht' Hf']];
    rewrite Ht', Hf'; reflexivity.
Qed.

Lemma foldl_format_tool_step (tools : list PyObject) (formatted : list string) :
  foldl format_tool_step formatted tools = formatted ++ map display_line tools.
Proof.
  revert formatted.
  induction tools as [|tool tools IH]; intros formatted; simpl.
  - by rewrite app_nil_r.
  - rewrite IH, format_tool_step_line, <- app_assoc. reflexivity.
Qed.

Lemma format_tools_map (tools : list PyObject) :
  _format_tools tools = map display_line tools.
Proof. unfold _format_tools. by rewrite foldl_format_tool_step. Qed.

(** C4.  The tool formatter returns one line per tool, in input order, and
    nothing for no tool; the line of a tool is [display_line]: its name is
    the name attribute, or the type name when the attribute is absent; its
    description is the first of the fields description and tool_description
    that is there with a text that is not empty; the line is
    "  - name: description" with a description and "  - name" without. *)
Theorem format_tools_lines (tools : list PyObject) :
  _format_tools tools = map display_line tools
  /\ _format_tools [] = []
  /\ length (_format_tools tools) = length tools
  /\ (forall (i : nat) (tool : PyObject),
        tools !! i = Some tool -> _format_tools tools !! i = Some (display_line tool)).
Proof.
  pose proof (format_tools_map tools) as Hmap.
  split; [exact Hmap|]. split; [reflexivity|]. rewrite Hmap. split.
  - by rewrite length_map.
  - intros i tool Hi. by rewrite list_lookup_fmap, Hi.
Qed.

Example format_tools_fallbacks :
  _format_tools
    [mkObject "FileSearchTool" ∅;
     mkObject "FunctionTool" (<["name" := VStr "quiet"]> (<["description" := VStr ""]> ∅));
     mkObject "HostedTool"
       (<["name" := VStr "alt"]> (<["tool_description" := VStr "Second field."]> ∅))]
  = ["  - FileSearchTool"; "  - quiet"; "  - alt: Second field."].
Proof. vm_compute. reflexivity. Qed.

Lemma handoff_complete_attrs (handoff : PyObject) :
  handoff_complete handoff = true ->
  exists d a t, attrs handoff !! "tool_description" = Some d
    /\ attrs handoff !! "agent_name" = Some a
    /\ attrs handoff !! "tool_name" = Some t.
Proof.
  unfold handoff_complete. intros Hc.
  apply andb_true_iff in Hc as [Hc Ht]. apply andb_true_iff in Hc as [Hd Ha].
  apply bool_decide_eq_true in Hd as [d Hd], Ha as [a Ha], Ht as [t Ht].
  by exists d, a, t.
Qed.

Lemma format_handoff_step_complete (formatted : list string) (handoff : PyObject) :
  handoff_complete handoff = true ->
  format_handoff_step formatted handoff = Val (formatted ++ [handoff_display_line handoff]).
Proof.
  intros (d & a & t & Hd & Ha & Ht)%handoff_complete_attrs.
  unfold format_handoff_step, handoff_display_line, field_text, getattr.
  rewrite Hd, Ha, Ht. simpl.
  destruct d as [|s]; simpl; [reflexivity|].
  destruct (String.eqb s ""); reflexivity.
Qed.

Lemma format_handoff_step_incomplete (formatted : list string) (handoff : PyObject) :
  handoff_complete handoff = false ->
  exists attr, format_handoff_step formatted handoff
               = Err (AttributeError (class_name handoff) attr).
Proof.
  unfold handoff_complete, format_handoff_step, getattr. intros Hc.
  destruct (attrs handoff !! "tool_description") as [d|]; [|by eexists].
  destruct (attrs handoff !! "agent_name") as [a|];
    [|simpl; destruct (truthy d); by eexists].
  destruct (attrs handoff !! "tool_name") as [t|];
    [|simpl; destruct (truthy d); by eexists].
  exfalso. revert Hc.
  rewrite !bool_decide_eq_true_2 by (by eexists). discriminate.
Qed.

Lemma foldl_handoffs_err (handoffs : list PyObject) (e : Exn) :
  foldl (fun acc handoff => res_bind acc (fun formatted => format_handoff_step formatted handoff))
        (Err e) handoffs = Err e.
Proof. induction handoffs as [|handoff handoffs IH]; simpl; [reflexivity|exact IH]. Qed.

Lemma foldl_handoffs_complete (handoffs : list PyObject) (formatted : list string) :
  forallb handoff_complete handoffs = true ->
  foldl (fun acc handoff => res_bind acc (fun formatted => format_handoff_step formatted handoff))
        (Val formatted) handoffs
  = Val (formatted ++ map handoff_display_line handoffs).
Proof.
  revert formatted.
  induction handoffs as [|handoff handoffs IH]; intros formatted Hall; simpl.
  - by rewrite app_nil_r.
  - simpl in Hall. apply andb_true_iff in Hall as [Hc Hall].
    rewrite (format_handoff_step_complete _ _ Hc), (IH _ Hall), <- app_assoc.
    reflexivity.
Qed.

Lemma foldl_handoffs_incomplete (handoffs : list PyObject) (formatted : list string) :
  forallb handoff_complete handoffs = false ->
  exists cls attr,
    foldl (fun acc handoff => res_bind acc (fun formatted => format_handoff_step formatted handoff))
          (Val formatted) handoffs
    = Err (AttributeError cls attr).
Proof.
  revert formatted.
  induction handoffs as [|handoff handoffs IH]; intros formatted Hall; simpl in *.
  - discriminate.
  - destruct (handoff_complete handoff) eqn:Hc; simpl in Hall.
    + rewrite (format_handoff_step_complete _ _ Hc). by apply IH.
    + destruct (format_handoff_step_incomplete formatted _ Hc) as [attr Hstep].
      rewrite Hstep, foldl_handoffs_err. by eexists _, _.
Qed.

Lemma format_handoffs_complete (handoffs : list PyObject) :
  forallb handoff_complete handoffs = true ->
  _format_handoffs handoffs = Val (map handoff_display_line handoffs).
Proof. intros Hall. unfold _format_handoffs. by rewrite foldl_handoffs_complete. Qed.

(** C5, as it is written, at a handoff object that lacks its description,
    and at one that lacks its agent name: formatting raises, and no type
    name stands in. *)
Lemma format_handoffs_raises :
  _format_handoffs [handoff_without_description]
    = Err (AttributeError "Handoff" "tool_description")
  /\ _format_handoffs [handoff_without_agent_name]
    = Err (AttributeError "Handoff" "agent_name").
Proof. split; vm_compute; reflexivity. Qed.

(** C5, amended.  Formatting tools never raises: there is one line per tool
    whatever attributes are missing, a tool with no description has the line
    "  - name", and a tool with no name attribute is shown under its type
    name.  Formatting handoffs reads [tool_description], [agent_name] and
    [tool_name] by plain attribute access: it returns, one line per handoff,
    exactly when every handoff carries the three (a description that is
    [None] or empty is left out of the line), and raises [AttributeError]
    otherwise. *)
Theorem formatting_tolerance :
  (forall tools : list PyObject, length (_format_tools tools) = length tools)
  /\ (forall tool : PyObject,
        attrs tool !! "description" = None -> attrs tool !! "tool_description" = None ->
        _format_tools [tool] = ["  - " +:+ display_name tool])
  /\ (forall tool : PyObject,
        attrs tool !! "name" = None -> display_name tool = class_name tool)
  /\ (forall handoffs : list PyObject,
        forallb handoff_complete handoffs = true ->
        _format_handoffs handoffs = Val (map handoff_display_line handoffs))
  /\ (forall handoffs : list PyObject,
        forallb handoff_complete handoffs = false ->
        exists cls attr, _format_handoffs handoffs = Err (AttributeError cls attr)).
Proof.
  repeat split.
  - intros tools. by rewrite format_tools_map, length_map.
  - intros tool Hd Ht. rewrite format_tools_map. simpl.
    unfold display_line, display_description, field_text. by rewrite Hd, Ht.
  - intros tool Hn. unfold display_name. by rewrite Hn.
  - apply format_handoffs_complete.
  - intros handoffs Hall. by apply foldl_handoffs_incomplete.
Qed.

(** ** Running the adapter's code *)

Lemma bind_returned {A B : Type} (c : M A) (k : A -> M B) (st st' : State) (a : A) :
  c st = Returned a st' -> (c ≫= k) st = k a st'.
Proof. intros Hc. unfold mbind, M_bind. by rewrite Hc. Qed.

Lemma bind_raised {A B : Type} (c : M A) (k : A -> M B) (st st' : State) (e : Exn) :
  c st = Raised e st' -> (c ≫= k) st = Raised e st'.
Proof. intros Hc. unfold mbind, M_bind. by rewrite Hc. Qed.

(** Case analysis on the innermost call whose outcome the goal waits for. *)
Ltac run_step :=
  match goal with
  | |- context [match ?x with Returned _ _ => _ | Raised _ _ => _ end] =>
      lazymatch x with
      | match _ with Returned _ _ => _ | Raised _ _ => _ end => fail
      | _ => destruct x as [? ?|? ?]
      end
  end.

Section Printing.
Variable Inv : Mem -> Prop.
Variable print_fn : string -> Callback unit.
Hypothesis print_returns : returns_under Inv print_fn.

Local Abbreviation say := (call_print_fn print_fn).

Lemma prints_say (line : string) (st : State) :
  Inv (mem st) -> exists st', prints Inv print_fn (say line) st [line] st'.
Proof.
  intros Hinv. destruct (print_returns line (mem st) Hinv) as (m' & Hm' & Hinv').
  exists (mkState m' (trace st ++ [EvPrint line])).
  unfold prints, call_print_fn, call. rewrite Hm'. repeat split; [exact Hinv'|].
  intros Hq. specialize (Hq line (mem st)). by rewrite Hm' in Hq.
Qed.

Lemma prints_nothing (st : State) :
  Inv (mem st) -> prints Inv print_fn (mret tt) st [] st.
Proof. intros Hinv. unfold prints. simpl. by rewrite app_nil_r. Qed.

Lemma prints_seq (c1 c2 : M unit) (st st1 st2 : State) (l1 l2 : list string) :
  prints Inv print_fn c1 st l1 st1 -> prints Inv print_fn c2 st1 l2 st2 ->
  prints Inv print_fn (c1 ;; c2) st (l1 ++ l2) st2.
Proof.
  intros (Hc1 & Ht1 & _ & Hh1) (Hc2 & Ht2 & Hinv & Hh2). unfold prints.
  rewrite (bind_returned _ _ _ _ _ Hc1), Hc2, Ht2, Ht1, map_app, app_assoc.
  repeat split; [exact Hinv|]. intros Hq. by rewrite Hh2, Hh1.
Qed.

Lemma prints_inv (c : M unit) (st st' : State) (lines : list string) :
  prints Inv print_fn c st lines st' -> Inv (mem st').
Proof. by intros (_ & _ & Hinv & _). Qed.

Lemma prints_heap (c : M unit) (st st' : State) (lines : list string) :
  prints Inv print_fn c st lines st' -> heap_quiet print_fn ->
  heap (mem st') = heap (mem st).
Proof. by intros (_ & _ & _ & Hheap). Qed.

Lemma prints_for_each (lines : list string) (st : State) :
  Inv (mem st) -> exists st', prints Inv print_fn (for_each lines say) st lines st'.
Proof.
  revert st. induction lines as [|line lines IH]; intros st Hinv.
  - exists st. by apply prints_nothing.
  - destruct (prints_say line st Hinv) as [st1 H1].
    destruct (IH st1 (prints_inv _ _ _ _ H1)) as [st2 H2].
    exists st2. exact (prints_seq _ _ _ _ _ [line] lines H1 H2).
Qed.
End Printing.

Lemma lift_returned {A : Type} (f : Callback A) (st : State) (a : A) (m' : Mem) :
  f (mem st) = Returned a m' -> lift f st = Returned a (mkState m' (trace st)).
Proof. intros Hf. unfold lift. by rewrite Hf. Qed.

Lemma lift_raised {A : Type} (f : Callback A) (st : State) (e : Exn) (m' : Mem) :
  f (mem st) = Raised e m' -> lift f st = Raised e (mkState m' (trace st)).
Proof. intros Hf. unfold lift. by rewrite Hf. Qed.

Lemma call_trace {A : Type} (ev : Event) (f : Callback A) (st : State) :
  trace (final (call ev f st)) = trace st ++ [ev].
Proof. unfold call. by destruct (f (mem st)). Qed.

Section Transcript.
Context `{Host}.
Variable Inv : Mem -> Prop.
Variable print_fn : string -> Callback unit.
Hypothesis print_returns : returns_under Inv print_fn.

Local Abbreviation say := (call_print_fn print_fn).
Local Abbreviation say_ok := (prints_say Inv print_fn print_returns).

Lemma prints_instructions (si : option string) (st : State) :
  Inv (mem st) ->
  exists st',
    prints Inv print_fn
      (if str_truthy si
       then say "System instructions:" ;; say (default "" si)
       else say "System instructions: <none>")
      st (instructions_section si) st'.
Proof.
  intros Hinv.
  destruct si as [t|]; simpl; [|by apply say_ok].
  destruct (String.eqb t ""); simpl; [by apply say_ok|].
  destruct (say_ok "System instructions:" st Hinv) as [st1 H1].
  destruct (say_ok t st1 (prints_inv _ _ _ _ _ _ H1)) as [st2 H2].
  exists st2. exact (prints_seq _ _ _ _ _ _ _ _ _ H1 H2).
Qed.

Lemma prints_dump (l : loc) (st : State) :
  Inv (mem st) ->
  exists st',
    prints Inv print_fn (h ← get_heap; say (pformat h l)) st
           [pformat (heap (mem st)) l] st'.
Proof.
  intros Hinv.
  destruct (say_ok (pformat (heap (mem st)) l) st Hinv) as [st' Hp].
  exists st'. exact Hp.
Qed.

Lemma prints_prompt (pr : option loc) (st : State) :
  Inv (mem st) ->
  exists h st',
    prints Inv print_fn
      (match pr with
       | Some p => say "Prompt configuration:" ;; (h ← get_heap; say (pformat h p))
       | None => mret tt
       end)
      st (prompt_section (pformat h <$> pr)) st'
    /\ (heap_quiet print_fn -> h = heap (mem st)).
Proof.
  intros Hinv. destruct pr as [p|]; simpl.
  - destruct (say_ok "Prompt configuration:" st Hinv) as [st1 H1].
    destruct (prints_dump p st1 (prints_inv _ _ _ _ _ _ H1)) as [st2 H2].
    exists (heap (mem st1)), st2. split.
    + exact (prints_seq _ _ _ _ _ _ _ ["Prompt configuration:"] _ H1 H2).
    + intros Hq. exact (prints_heap _ _ _ _ _ _ H1 Hq).
  - exists (heap (mem st)), st. split; [by apply prints_nothing|done].
Qed.

Lemma prints_tools (tls : list PyObject) (st : State) :
  Inv (mem st) ->
  exists st',
    prints Inv print_fn
      (match tls with
       | _ :: _ => say "Available tools:" ;; for_each (_format_tools tls) say
       | [] => say "Available tools: none"
       end)
      st (tools_section tls) st'.
Proof.
  intros Hinv.
  destruct tls as [|tool tls]; [by apply say_ok|].
  destruct (say_ok "Available tools:" st Hinv) as [st1 H1].
  destruct (prints_for_each _ _ print_returns (_format_tools (tool :: tls)) st1
              (prints_inv _ _ _ _ _ _ H1)) as [st2 H2].
  exists st2. exact (prints_seq _ _ _ _ _ _ _ ["Available tools:"] _ H1 H2).
Qed.

Lemma prints_handoffs (hds : list PyObject) (hlines : list string) (st : State) :
  _format_handoffs hds = Val hlines ->
  Inv (mem st) ->
  exists st',
    prints Inv print_fn
      (match hds with
       | _ :: _ =>
           say "Available handoffs:" ;;
           (lines ← lift_res (_format_handoffs hds); for_each lines say)
       | [] => say "Available handoffs: none"
       end)
      st (handoffs_section hds hlines) st'.
Proof.
  intros Hfmt Hinv.
  destruct hds as [|handoff hds]; [by apply say_ok|].
  destruct (say_ok "Available handoffs:" st Hinv) as [st1 H1].
  destruct (prints_for_each _ _ print_returns hlines st1 (prints_inv _ _ _ _ _ _ H1))
    as [st2 H2].
  exists st2. refine (prints_seq _ _ _ _ _ _ _ ["Available handoffs:"] _ H1 _).
  unfold prints in *. rewrite Hfmt. exact H2.
Qed.

(** With a [print_fn] that returns, well-formed handoffs and an input that
    normalizes, the context is shown in full, section after section. *)
Lemma show_context_prints (si : option string) (inp : Input) (tls hds : list PyObject)
    (pr : option loc) (st : State) (l : loc) (m1 : Mem) (hlines : list string) :
  input_to_new_input_list inp (mem st) = Returned l m1 ->
  Inv m1 ->
  _format_handoffs hds = Val hlines ->
  exists h_items h_prompt st1,
    show_context si inp tls hds pr print_fn st = Returned tt st1
    /\ trace st1
       = trace st
         ++ map EvPrint
              (transcript si (pformat h_items l) (pformat h_prompt <$> pr) tls hds hlines)
    /\ (heap_quiet print_fn ->
        h_items = heap m1 /\ h_prompt = heap m1 /\ heap (mem st1) = heap m1).
Proof.
  intros Hnorm Hinv Hfmt.
  set (st0 := mkState m1 (trace st)).
  destruct (say_ok "=== Manual model interaction ===" st0 Hinv) as [sa Ha].
  destruct (prints_instructions si sa (prints_inv _ _ _ _ _ _ Ha)) as [sb Hb].
  destruct (say_ok "Conversation items:" sb (prints_inv _ _ _ _ _ _ Hb)) as [sc Hc].
  destruct (prints_dump l sc (prints_inv _ _ _ _ _ _ Hc)) as [sd Hd].
  destruct (prints_prompt pr sd (prints_inv _ _ _ _ _ _ Hd)) as (h_prompt & se & He & Hei).
  destruct (prints_tools tls se (prints_inv _ _ _ _ _ _ He)) as [sf Hf].
  destruct (prints_handoffs hds hlines sf Hfmt (prints_inv _ _ _ _ _ _ Hf)) as [sg Hg].
  destruct (say_ok "Provide the next assistant message." sg (prints_inv _ _ _ _ _ _ Hg))
    as [sh Hh].
  pose proof (prints_seq _ _ _ _ _ _ _ _ _ Ha
               (prints_seq _ _ _ _ _ _ _ _ _ Hb
                 (prints_seq _ _ _ _ _ _ _ _ _ Hc
                   (prints_seq _ _ _ _ _ _ _ _ _ Hd
                     (prints_seq _ _ _ _ _ _ _ _ _ He
                       (prints_seq _ _ _ _ _ _ _ _ _ Hf
                         (prints_seq _ _ _ _ _ _ _ _ _ Hg Hh)))))))
    as (Hrun & Htrace & _ & Hheap).
  exists (heap (mem sc)), h_prompt, sh. split; [|split].
  - unfold show_context. rewrite (bind_returned _ _ _ _ _ (lift_returned _ _ _ _ Hnorm)).
    exact Hrun.
  - exact Htrace.
  - intros Hq.
    pose proof (prints_heap _ _ _ _ _ _ Ha Hq) as Ea.
    pose proof (prints_heap _ _ _ _ _ _ Hb Hq) as Eb.
    pose proof (prints_heap _ _ _ _ _ _ Hc Hq) as Ec.
    pose proof (prints_heap _ _ _ _ _ _ Hd Hq) as Ed.
    repeat split.
    + by rewrite Ec, Eb, Ea.
    + by rewrite (Hei Hq), Ed, Ec, Eb, Ea.
    + exact (Hheap Hq).
Qed.
End Transcript.

Section Runs.
Context `{Host}.

(** The driver shows the context and then calls the provider it chose. *)
Lemma interaction_split (si : option string) (inp : Input) (tls hds : list PyObject)
    (pr : option loc) (print_fn : string -> Callback unit)
    (rp : option (Callback string)) (st : State) :
  manual_prompt_interaction si inp tls hds pr print_fn rp st
  = (show_context si inp tls hds pr print_fn ;; call EvProvider (chosen_provider rp)) st.
Proof.
  unfold manual_prompt_interaction, show_context, mbind, M_bind.
  repeat run_step; reflexivity.
Qed.

Lemma interaction_after_context (self : ManualModel) (args : CallArgs) (st st1 : State) :
  model_context self args st = Returned tt st1 ->
  manual_prompt_interaction
    (system_instructions args) (input args) (tools args) (handoffs args) (prompt args)
    (_print_fn self) (_response_provider self) st
  = call EvProvider (chosen_provider (_response_provider self)) st1.
Proof.
  intros Hctx. rewrite interaction_split. unfold model_context in Hctx.
  unfold mbind, M_bind. by rewrite Hctx.
Qed.

Lemma interaction_context_raised (self : ManualModel) (args : CallArgs) (st st1 : State)
    (e : Exn) :
  model_context self args st = Raised e st1 ->
  manual_prompt_interaction
    (system_instructions args) (input args) (tools args) (handoffs args) (prompt args)
    (_print_fn self) (_response_provider self) st
  = Raised e st1.
Proof.
  intros Hctx. rewrite interaction_split. unfold model_context in Hctx.
  unfold mbind, M_bind. by rewrite Hctx.
Qed.

Lemma show_context_normalization_raised (si : option string) (inp : Input)
    (tls hds : list PyObject) (pr : option loc) (print_fn : string -> Callback unit)
    (st : State) (e : Exn) (m1 : Mem) :
  input_to_new_input_list inp (mem st) = Raised e m1 ->
  show_context si inp tls hds pr print_fn st = Raised e (mkState m1 (trace st)).
Proof.
  intros Hnorm. unfold show_context.
  by rewrite (bind_raised _ _ _ _ _ (lift_raised _ _ _ _ Hnorm)).
Qed.

(** What the two operations make of the outcome of the driver. *)
Lemma get_response_of_interaction (self : ManualModel) (args : CallArgs) (st : State) :
  get_response self args st
  = match manual_prompt_interaction
            (system_instructions args) (input args) (tools args) (handoffs args)
            (prompt args) (_print_fn self) (_response_provider self) st with
    | Returned text st' =>
        Returned (ModelResponse.make [_build_output_message text] Usage.new
                                     (Some _RESPONSE_ID)) st'
    | Raised e st' => Raised e st'
    end.
Proof. reflexivity. Qed.

Lemma anext_of_interaction (self : ManualModel) (args : CallArgs) (st : State) :
  anext (mkGen self args GenCreated) st
  = match manual_prompt_interaction
            (system_instructions args) (input args) (tools args) (handoffs args)
            (prompt args) (_print_fn self) (_response_provider self) st with
    | Returned text st' =>
        (Yielded (_build_completed_event (_build_output_message text) Usage.new),
         mkGen self args GenSuspended, st')
    | Raised e st' => (Threw e, mkGen self args GenClosed, st')
    end.
Proof.
  unfold anext, stream_response_body, mbind, M_bind. simpl.
  by destruct (manual_prompt_interaction _ _ _ _ _ _ _ st).
Qed.
End Runs.

(** ** The two operations *)

Section Operations.
Context `{Host}.

(** C1.  When the context has been shown and the injected provider returns
    the text T, [get_response] returns a result whose output is one message,
    whose content is one text segment, whose text is T as it is, with every
    counter of its usage zero. *)
Theorem get_response_verbatim (self : ManualModel) (args : CallArgs)
    (provider : Callback string) (st st1 : State) (T : string) (m2 : Mem) :
  _response_provider self = Some provider ->
  model_context self args st = Returned tt st1 ->
  provider (mem st1) = Returned T m2 ->
  exists response message segment,
    get_response self args st
      = Returned response (mkState m2 (trace st1 ++ [EvProvider]))
    /\ ModelResponse.output response = [message]
    /\ ResponseOutputMessage.content message = [segment]
    /\ ResponseOutputText.text segment = T
    /\ Usage.input_tokens (ModelResponse.usage response) = 0
    /\ Usage.output_tokens (ModelResponse.usage response) = 0
    /\ Usage.total_tokens (ModelResponse.usage response) = 0
    /\ InputTokensDetails.cached_tokens
         (Usage.input_tokens_details (ModelResponse.usage response)) = 0
    /\ OutputTokensDetails.reasoning_tokens
         (Usage.output_tokens_details (ModelResponse.usage response)) = 0
    /\ Usage.requests (ModelResponse.usage response) = 0.
Proof.
  intros Hinj Hctx Hreply.
  eexists _, _, _. split.
  - rewrite get_response_of_interaction, (interaction_after_context _ _ _ _ Hctx).
    rewrite Hinj. unfold call, chosen_provider. simpl. rewrite Hreply. reflexivity.
  - simpl. repeat split.
Qed.

(** C2.  When the context has been shown and the provider returns the text
    T, the sequence that [stream_response] returns yields one event on its
    first step and stops on its second, so that iterating it gives that one
    event; the event is a completed event, and the one message of its
    response has one content segment, whose text is T. *)
Theorem stream_response_single_event (self : ManualModel) (args : CallArgs)
    (provider : Callback string) (st st1 : State) (T : string) (m2 : Mem) :
  _response_provider self = Some provider ->
  model_context self args st = Returned tt st1 ->
  provider (mem st1) = Returned T m2 ->
  exists gen gen1 gen2 event message segment,
    let st2 := mkState m2 (trace st1 ++ [EvProvider]) in
    stream_response self args st = Returned gen st
    /\ anext gen st = (Yielded event, gen1, st2)
    /\ anext gen1 st2 = (StopAsyncIteration, gen2, st2)
    /\ anext gen2 st2 = (StopAsyncIteration, gen2, st2)
    /\ (forall fuel : nat,
          (2 <= fuel)%nat -> async_for fuel gen [] st = Some (Returned [event] st2))
    /\ ResponseCompletedEvent.type event = "response.completed"
    /\ Response.output (ResponseCompletedEvent.response event) = [message]
    /\ ResponseOutputMessage.content message = [segment]
    /\ ResponseOutputText.text segment = T.
Proof.
  intros Hinj Hctx Hreply.
  assert (Hfirst : anext (mkGen self args GenCreated) st
                   = (Yielded (_build_completed_event (_build_output_message T) Usage.new),
                      mkGen self args GenSuspended,
                      mkState m2 (trace st1 ++ [EvProvider]))).
  { rewrite anext_of_interaction, (interaction_after_context _ _ _ _ Hctx).
    rewrite Hinj. unfold call, chosen_provider. simpl. by rewrite Hreply. }
  exists (mkGen self args GenCreated), (mkGen self args GenSuspended),
         (mkGen self args GenClosed).
  eexists _, _, _. cbv zeta.
  split; [reflexivity|]. split; [exact Hfirst|].
  split; [reflexivity|]. split; [reflexivity|]. split.
  - intros [|[|fuel]] Hfuel; [lia|lia|].
    cbn [async_for]. rewrite Hfirst. reflexivity.
  - simpl. repeat split.
Qed.
End Operations.

Lemma get_response_verbatim_test :
  exists response message segment,
    @get_response spec_host test_model test_get_args test_get_state
      = Returned response (mkState test_get_replied (trace test_get_shown ++ [EvProvider]))
    /\ ModelResponse.output response = [message]
    /\ ResponseOutputMessage.content message = [segment]
    /\ ResponseOutputText.text segment = "Manual reply"
    /\ Usage.input_tokens (ModelResponse.usage response) = 0
    /\ Usage.output_tokens (ModelResponse.usage response) = 0
    /\ Usage.total_tokens (ModelResponse.usage response) = 0
    /\ InputTokensDetails.cached_tokens
         (Usage.input_tokens_details (ModelResponse.usage response)) = 0
    /\ OutputTokensDetails.reasoning_tokens
         (Usage.output_tokens_details (ModelResponse.usage response)) = 0
    /\ Usage.requests (ModelResponse.usage response) = 0.
Proof.
  apply (get_response_verbatim (H := spec_host) test_model test_get_args
           (pop_response 1%nat) test_get_state test_get_shown);
    vm_compute; reflexivity.
Defined.

Lemma stream_response_single_event_test :
  exists gen gen1 gen2 event message segment,
    let st2 := mkState test_stream_replied (trace test_stream_shown ++ [EvProvider]) in
    @stream_response test_model test_stream_args test_stream_state
      = Returned gen test_stream_state
    /\ @anext spec_host gen test_stream_state = (Yielded event, gen1, st2)
    /\ @anext spec_host gen1 st2 = (StopAsyncIteration, gen2, st2)
    /\ @anext spec_host gen2 st2 = (StopAsyncIteration, gen2, st2)
    /\ (forall fuel : nat,
          (2 <= fuel)%nat
          -> @async_for spec_host fuel gen [] test_stream_state
             = Some (Returned [event] st2))
    /\ ResponseCompletedEvent.type event = "response.completed"
    /\ Response.output (ResponseCompletedEvent.response event) = [message]
    /\ ResponseOutputMessage.content message = [segment]
    /\ ResponseOutputText.text segment = "Streamed manual response".
Proof.
  apply (stream_response_single_event (H := spec_host) test_model test_stream_args
           (pop_response 1%nat) test_stream_state test_stream_shown);
    vm_compute; reflexivity.
Defined.

(** ** The transcript *)

Lemma printed_prints (tr : list Event) (lines : list string) :
  printed (tr ++ map EvPrint lines) = printed tr ++ lines.
Proof.
  unfold printed. rewrite omap_app. f_equal.
  induction lines as [|line lines IH]; [reflexivity|].
  cbn. f_equal. exact IH.
Qed.

Lemma printed_provider (tr : list Event) : printed (tr ++ [EvProvider]) = printed tr.
Proof. unfold printed. rewrite omap_app. simpl. by rewrite app_nil_r. Qed.

Lemma list_append_returns (printed_at : loc) :
  returns_under (fun m => exists lines, heap m !! printed_at = Some (CList lines))
                (list_append printed_at).
Proof.
  intros line m [lines Hlines]. unfold list_append. rewrite Hlines.
  eexists. split; [reflexivity|]. simpl.
  exists (lines ++ [HStr line]). apply list_lookup_insert_eq.
  by apply lookup_lt_Some in Hlines.
Qed.

(** C3, as it is written, at the call of the repository's first test, whose
    instructions are "Be concise.": the second line the driver hands to
    [print_fn] is the label "System instructions:", where the stated
    transcript has the instructions themselves. *)
Lemma stated_transcript_differs :
  printed (trace (final (@get_response spec_host test_model test_get_args test_get_state)))
    !! 1%nat = Some "System instructions:"
  /\ stated_transcript (Some "Be concise.") "[{'content': 'Hello', 'role': 'user'}]" None
       [test_tool] [test_handoff]
       ["  - Helper via `transfer_to_helper`: Transfer to helper agent."]
    !! 1%nat = Some "Be concise."
  /\ printed (trace (final (@get_response spec_host test_model test_get_args test_get_state)))
     <> stated_transcript (Some "Be concise.") "[{'content': 'Hello', 'role': 'user'}]" None
          [test_tool] [test_handoff]
          ["  - Helper via `transfer_to_helper`: Transfer to helper agent."].
Proof.
  assert (H1 : printed (trace (final (@get_response spec_host test_model test_get_args
                                        test_get_state))) !! 1%nat
               = Some "System instructions:") by (vm_compute; reflexivity).
  assert (H2 : stated_transcript (Some "Be concise.")
                 "[{'content': 'Hello', 'role': 'user'}]" None [test_tool] [test_handoff]
                 ["  - Helper via `transfer_to_helper`: Transfer to helper agent."]
                 !! 1%nat = Some "Be concise.") by (vm_compute; reflexivity).
  split; [exact H1|]. split; [exact H2|].
  intros Heq. rewrite Heq, H2 in H1. discriminate H1.
Qed.

Section TranscriptOrder.
Context `{Host}.

(** C3, amended.  When the input normalizes, [print_fn] returns and the
    handoffs carry their attributes, the driver hands to [print_fn], in this
    order and with nothing between: the header; the line
    "System instructions:" and then the instructions when they are present
    and not empty, else the one line "System instructions: <none>";
    "Conversation items:" and the dump of the normalized input; when there is
    a prompt configuration, "Prompt configuration:" and its dump; the tools
    section; the handoffs section; the trailer; and it then calls the
    provider.  The dumps are of the object store as it stands when they are
    made: as normalization left it, when [print_fn] does not write to it. *)
Theorem transcript_order (Inv : Mem -> Prop) (si : option string) (inp : Input)
    (tls hds : list PyObject) (pr : option loc) (print_fn : string -> Callback unit)
    (rp : option (Callback string)) (st : State) (l : loc) (m1 : Mem)
    (hlines : list string) :
  input_to_new_input_list inp (mem st) = Returned l m1 ->
  Inv m1 ->
  returns_under Inv print_fn ->
  _format_handoffs hds = Val hlines ->
  exists h_items h_prompt,
    trace (final (manual_prompt_interaction si inp tls hds pr print_fn rp st))
      = trace st
        ++ map EvPrint
             (transcript si (pformat h_items l) (pformat h_prompt <$> pr) tls hds hlines)
        ++ [EvProvider]
    /\ printed (trace (final (manual_prompt_interaction si inp tls hds pr print_fn rp st)))
       = printed (trace st)
         ++ transcript si (pformat h_items l) (pformat h_prompt <$> pr) tls hds hlines
    /\ (heap_quiet print_fn -> h_items = heap m1 /\ h_prompt = heap m1).
Proof.
  intros Hnorm Hinv Hret Hfmt.
  destruct (show_context_prints Inv print_fn Hret si inp tls hds pr st l m1 hlines
              Hnorm Hinv Hfmt) as (h_items & h_prompt & st1 & Hctx & Htrace & Hheap).
  exists h_items, h_prompt.
  assert (Hfinal : trace (final (manual_prompt_interaction si inp tls hds pr print_fn rp st))
                   = trace st1 ++ [EvProvider]).
  { rewrite interaction_split, (bind_returned _ _ _ _ _ Hctx). apply call_trace. }
  rewrite Hfinal, Htrace. split; [by rewrite app_assoc|]. split.
  - by rewrite printed_provider, printed_prints.
  - intros Hq. by destruct (Hheap Hq) as (? & ? & _).
Qed.
End TranscriptOrder.

Lemma transcript_order_test :
  exists h_items h_prompt,
    trace (final (@manual_prompt_interaction spec_host (Some "Be concise.") (InStr "Hello")
                    [test_tool] [test_handoff] None (list_append 0%nat)
                    (Some (pop_response 1%nat)) test_get_state))
      = trace test_get_state
        ++ map EvPrint
             (transcript (Some "Be concise.") (pformat_line h_items 3%nat)
                (pformat_line h_prompt <$> None) [test_tool] [test_handoff]
                ["  - Helper via `transfer_to_helper`: Transfer to helper agent."])
        ++ [EvProvider]
    /\ printed (trace (final (@manual_prompt_interaction spec_host (Some "Be concise.")
                                (InStr "Hello") [test_tool] [test_handoff] None
                                (list_append 0%nat) (Some (pop_response 1%nat))
                                test_get_state)))
       = printed (trace test_get_state)
         ++ transcript (Some "Be concise.") (pformat_line h_items 3%nat)
              (pformat_line h_prompt <$> None) [test_tool] [test_handoff]
              ["  - Helper via `transfer_to_helper`: Transfer to helper agent."]
    /\ (heap_quiet (list_append 0%nat)
        -> h_items = heap test_get_normalized /\ h_prompt = heap test_get_normalized).
Proof.
  apply (transcript_order (H := spec_host)
           (fun m => exists lines, heap m !! 0%nat = Some (CList lines))).
  - vm_compute; reflexivity.
  - exists []. vm_compute; reflexivity.
  - apply list_append_returns.
  - vm_compute; reflexivity.
Defined.

(** ** Constants, failures and laziness *)

Section Outcomes.
Context `{Host}.

Lemma get_response_returned (self : ManualModel) (args : CallArgs) (st st' : State)
    (response : ModelResponse.t) :
  get_response self args st = Returned response st' ->
  exists text,
    response = ModelResponse.make [_build_output_message text] Usage.new (Some _RESPONSE_ID).
Proof.
  rewrite get_response_of_interaction.
  destruct (manual_prompt_interaction _ _ _ _ _ _ _ st) as [text st1|e st1];
    intros Hr; inversion Hr. by exists text.
Qed.

Lemma anext_yielded (gen gen' : AsyncGen) (st st' : State)
    (event : ResponseCompletedEvent.t) :
  anext gen st = (Yielded event, gen', st') ->
  exists text, event = _build_completed_event (_build_output_message text) Usage.new.
Proof.
  destruct gen as [self args []]; [|discriminate..].
  rewrite anext_of_interaction.
  destruct (manual_prompt_interaction _ _ _ _ _ _ _ st) as [text st1|e st1];
    intros Hr; inversion Hr. by exists text.
Qed.

(** C6, amended.  Every result of [get_response] carries the response id
    "manual-response" and the message id "manual-message"; it has no other
    field than output, usage and response id.  Every event of a stream has
    type "response.completed" and sequence number 0, and the response it
    wraps carries the id "manual-response", created_at 0, model "manual",
    tool_choice "none", no tools, parallel_tool_calls false and the message
    id "manual-message". *)
Theorem fixed_constants (self : ManualModel) (args : CallArgs) (st st' : State)
    (response : ModelResponse.t) (gen gen' : AsyncGen) (stg stg' : State)
    (event : ResponseCompletedEvent.t) :
  get_response self args st = Returned response st' ->
  anext gen stg = (Yielded event, gen', stg') ->
  ModelResponse.response_id response = Some "manual-response"
  /\ Forall (fun message => ResponseOutputMessage.id message = "manual-message")
            (ModelResponse.output response)
  /\ ResponseCompletedEvent.type event = "response.completed"
  /\ ResponseCompletedEvent.sequence_number event = 0
  /\ Response.id (ResponseCompletedEvent.response event) = "manual-response"
  /\ Response.created_at (ResponseCompletedEvent.response event) = 0
  /\ Response.model (ResponseCompletedEvent.response event) = "manual"
  /\ Response.tool_choice (ResponseCompletedEvent.response event) = "none"
  /\ Response.tools (ResponseCompletedEvent.response event) = []
  /\ Response.parallel_tool_calls (ResponseCompletedEvent.response event) = false
  /\ Forall (fun message => ResponseOutputMessage.id message = "manual-message")
            (Response.output (ResponseCompletedEvent.response event)).
Proof.
  intros [text ->]%get_response_returned [text' ->]%anext_yielded.
  simpl. repeat split; by repeat constructor.
Qed.

(** C9.  When normalization of the input raises, the driver, and with it
    both operations, raises the same exception in the state normalization
    left: nothing was handed to [print_fn], and the provider was not called. *)
Theorem normalization_failure_is_atomic (self : ManualModel) (args : CallArgs)
    (st : State) (e : Exn) (m1 : Mem) :
  input_to_new_input_list (input args) (mem st) = Raised e m1 ->
  manual_prompt_interaction
    (system_instructions args) (input args) (tools args) (handoffs args) (prompt args)
    (_print_fn self) (_response_provider self) st
  = Raised e (mkState m1 (trace st))
  /\ get_response self args st = Raised e (mkState m1 (trace st))
  /\ anext (mkGen self args GenCreated) st
     = (Threw e, mkGen self args GenClosed, mkState m1 (trace st))
  /\ printed (trace (final (get_response self args st))) = printed (trace st)
  /\ provider_calls (trace (final (get_response self args st))) = provider_calls (trace st).
Proof.
  intros Hnorm.
  assert (Hrun : manual_prompt_interaction
                   (system_instructions args) (input args) (tools args) (handoffs args)
                   (prompt args) (_print_fn self) (_response_provider self) st
                 = Raised e (mkState m1 (trace st))).
  { apply interaction_context_raised. by apply show_context_normalization_raised. }
  split; [exact Hrun|].
  rewrite get_response_of_interaction, anext_of_interaction, Hrun. by repeat split.
Qed.

(** C10.  The call of [stream_response] returns a sequence that has not
    started and leaves the state as it is: nothing is printed and the
    provider is not called.  The whole interaction takes place in the first
    step of the sequence; a step of a sequence that has started changes
    nothing. *)
Theorem stream_response_is_lazy (self : ManualModel) (args : CallArgs) (st : State) :
  stream_response self args st = Returned (mkGen self args GenCreated) st
  /\ snd (anext (mkGen self args GenCreated) st)
     = final (manual_prompt_interaction
                (system_instructions args) (input args) (tools args) (handoffs args)
                (prompt args) (_print_fn self) (_response_provider self) st)
  /\ snd (anext (mkGen self args GenSuspended) st) = st
  /\ snd (anext (mkGen self args GenClosed) st) = st.
Proof.
  split; [reflexivity|]. split; [|by split].
  rewrite anext_of_interaction.
  by destruct (manual_prompt_interaction _ _ _ _ _ _ _ st).
Qed.
End Outcomes.

(** C6, as it is written, at the event of the repository's streaming test:
    its type is "response.completed", not "completed". *)
Lemma stream_event_type_differs :
  exists event st',
    @async_for spec_host 3 (mkGen test_model test_stream_args GenCreated) []
               test_stream_state
    = Some (Returned [event] st')
    /\ ResponseCompletedEvent.type event = "response.completed"
    /\ ResponseCompletedEvent.type event <> "completed".
Proof.
  eexists _, _. split; [vm_compute; reflexivity|]. split; [reflexivity|discriminate].
Qed.

Lemma fixed_constants_test :
  let response := ModelResponse.make [_build_output_message "Manual reply"] Usage.new
                    (Some _RESPONSE_ID) in
  let event := _build_completed_event (_build_output_message "Streamed manual response")
                 Usage.new in
  ModelResponse.response_id response = Some "manual-response"
  /\ Forall (fun message => ResponseOutputMessage.id message = "manual-message")
            (ModelResponse.output response)
  /\ ResponseCompletedEvent.type event = "response.completed"
  /\ ResponseCompletedEvent.sequence_number event = 0
  /\ Response.id (ResponseCompletedEvent.response event) = "manual-response"
  /\ Response.created_at (ResponseCompletedEvent.response event) = 0
  /\ Response.model (ResponseCompletedEvent.response event) = "manual"
  /\ Response.tool_choice (ResponseCompletedEvent.response event) = "none"
  /\ Response.tools (ResponseCompletedEvent.response event) = []
  /\ Response.parallel_tool_calls (ResponseCompletedEvent.response event) = false
  /\ Forall (fun message => ResponseOutputMessage.id message = "manual-message")
            (Response.output (ResponseCompletedEvent.response event)).
Proof.
  apply (fixed_constants (H := spec_host) test_model test_get_args test_get_state
           (mkState test_get_replied (trace test_get_shown ++ [EvProvider]))
           _ (mkGen test_model test_stream_args GenCreated)
           (mkGen test_model test_stream_args GenSuspended) test_stream_state
           (mkState test_stream_replied (trace test_stream_shown ++ [EvProvider])));
    vm_compute; reflexivity.
Defined.

Lemma normalization_failure_test :
  @manual_prompt_interaction spec_host
    (system_instructions test_malformed_args) (input test_malformed_args)
    (tools test_malformed_args) (handoffs test_malformed_args) (prompt test_malformed_args)
    (_print_fn test_model) (_response_provider test_model) test_stream_state
  = Raised (TypeError "input is not a list of items")
           (mkState (mem test_stream_state) (trace test_stream_state))
  /\ @get_response spec_host test_model test_malformed_args test_stream_state
     = Raised (TypeError "input is not a list of items")
              (mkState (mem test_stream_state) (trace test_stream_state))
  /\ @anext spec_host (mkGen test_model test_malformed_args GenCreated) test_stream_state
     = (Threw (TypeError "input is not a list of items"),
        mkGen test_model test_malformed_args GenClosed,
        mkState (mem test_stream_state) (trace test_stream_state))
  /\ printed (trace (final (@get_response spec_host test_model test_malformed_args
                              test_stream_state)))
     = printed (trace test_stream_state)
  /\ provider_calls (trace (final (@get_response spec_host test_model test_malformed_args
                                     test_stream_state)))
     = provider_calls (trace test_stream_state).
Proof.
  apply (normalization_failure_is_atomic (H := spec_host) test_model test_malformed_args
           test_stream_state).
  vm_compute; reflexivity.
Defined.

(** ** What a run keeps *)

Section Keeps.
Variable R : relation State.
Context `{!PreOrder R}.

Lemma keeps_ret {A : Type} (a : A) : keeps R (mret a).
Proof. intros st. simpl. reflexivity. Qed.

Lemma keeps_bind {A B : Type} (c : M A) (k : A -> M B) :
  keeps R c -> (forall a, keeps R (k a)) -> keeps R (c ≫= k).
Proof.
  intros Hc Hk st. specialize (Hc st). unfold mbind, M_bind.
  destruct (c st) as [a st1|e st1]; simpl in *; [|exact Hc].
  etrans; [exact Hc|apply Hk].
Qed.

Lemma keeps_lift_res {A : Type} (r : Res A) : keeps R (lift_res r).
Proof. intros st. destruct r; simpl; reflexivity. Qed.

Lemma keeps_get_heap : keeps R get_heap.
Proof. intros st. simpl. reflexivity. Qed.

Lemma keeps_for_each {A : Type} (xs : list A) (body : A -> M unit) :
  (forall x, keeps R (body x)) -> keeps R (for_each xs body).
Proof.
  intros Hbody. induction xs as [|x xs IH]; simpl.
  - apply keeps_ret.
  - apply keeps_bind; [apply Hbody|intros _; exact IH].
Qed.

Context `{Host}.

Lemma show_context_keeps (si : option string) (inp : Input) (tls hds : list PyObject)
    (pr : option loc) (print_fn : string -> Callback unit) :
  keeps R (lift (input_to_new_input_list inp)) ->
  (forall line, keeps R (call_print_fn print_fn line)) ->
  keeps R (show_context si inp tls hds pr print_fn).
Proof.
  intros Hnorm Hsay. unfold show_context. cbv zeta.
  apply keeps_bind; [exact Hnorm|intros l].
  apply keeps_bind; [apply Hsay|intros _].
  apply keeps_bind.
  { destruct (str_truthy si); [|apply Hsay].
    apply keeps_bind; [apply Hsay|intros _; apply Hsay]. }
  intros _. apply keeps_bind; [apply Hsay|intros _].
  apply keeps_bind.
  { apply keeps_bind; [apply keeps_get_heap|intros h; apply Hsay]. }
  intros _. apply keeps_bind.
  { destruct pr as [p|]; [|apply keeps_ret].
    apply keeps_bind; [apply Hsay|intros _].
    apply keeps_bind; [apply keeps_get_heap|intros h; apply Hsay]. }
  intros _. apply keeps_bind.
  { destruct tls as [|tool tls]; [apply Hsay|].
    apply keeps_bind; [apply Hsay|intros _]. by apply keeps_for_each. }
  intros _. apply keeps_bind; [|intros _; apply Hsay].
  destruct hds as [|handoff hds]; [apply Hsay|].
  apply keeps_bind; [apply Hsay|intros _].
  apply keeps_bind; [apply keeps_lift_res|intros lines]. by apply keeps_for_each.
Qed.

Lemma interaction_keeps (self : ManualModel) (args : CallArgs) :
  keeps R (lift (input_to_new_input_list (input args))) ->
  (forall line, keeps R (call_print_fn (_print_fn self) line)) ->
  keeps R (call EvProvider (chosen_provider (_response_provider self))) ->
  keeps R (manual_prompt_interaction
             (system_instructions args) (input args) (tools args) (handoffs args)
             (prompt args) (_print_fn self) (_response_provider self)).
Proof.
  intros Hnorm Hsay Hask st. rewrite interaction_split.
  apply keeps_bind; [by apply show_context_keeps|intros _; exact Hask].
Qed.

Lemma operations_keep (self : ManualModel) (args : CallArgs) (st : State) :
  keeps R (lift (input_to_new_input_list (input args))) ->
  (forall line, keeps R (call_print_fn (_print_fn self) line)) ->
  keeps R (call EvProvider (chosen_provider (_response_provider self))) ->
  R st (final (get_response self args st))
  /\ R st (snd (anext (mkGen self args GenCreated) st)).
Proof.
  intros Hnorm Hsay Hask.
  pose proof (interaction_keeps self args Hnorm Hsay Hask st) as Hrun.
  rewrite get_response_of_interaction, anext_of_interaction.
  by destruct (manual_prompt_interaction _ _ _ _ _ _ _ st).
Qed.
End Keeps.

#[export] Instance printed_more_preorder : PreOrder printed_more.
Proof.
  split.
  - intros st. exists []. simpl. by rewrite app_nil_r.
  - intros st1 st2 st3 [l1 H1] [l2 H2]. exists (l1 ++ l2).
    by rewrite H2, H1, map_app, app_assoc.
Qed.

#[export] Instance cell_kept_preorder (l : loc) (c : Cell) : PreOrder (cell_kept l c).
Proof. split; unfold cell_kept; [by intros st|intros st1 st2 st3 H1 H2 Hc; auto]. Qed.

Lemma lift_printed_more {A : Type} (f : Callback A) : keeps printed_more (lift f).
Proof.
  intros st. exists []. unfold lift. destruct (f (mem st)); simpl; by rewrite app_nil_r.
Qed.

Lemma say_printed_more (print_fn : string -> Callback unit) (line : string) :
  keeps printed_more (call_print_fn print_fn line).
Proof. intros st. exists [line]. apply call_trace. Qed.

Lemma printed_more_provider_calls (st st' : State) :
  printed_more st st' -> provider_calls (trace st') = provider_calls (trace st).
Proof.
  intros [lines ->]. unfold provider_calls. rewrite omap_app, length_app.
  assert (Hnone : omap (fun ev => match ev with
                                  | EvProvider => Some tt
                                  | EvPrint _ => None
                                  end) (map EvPrint lines) = []).
  { induction lines as [|line lines IH]; [reflexivity|exact IH]. }
  rewrite Hnone. simpl. lia.
Qed.

Lemma lift_cell_kept {A : Type} (l : loc) (c : Cell) (f : Callback A) :
  leaves_cell l c f -> keeps (cell_kept l c) (lift f).
Proof.
  intros Hf st Hc. specialize (Hf (mem st) Hc). unfold lift.
  by destruct (f (mem st)).
Qed.

Lemma call_cell_kept {A : Type} (l : loc) (c : Cell) (ev : Event) (f : Callback A) :
  leaves_cell l c f -> keeps (cell_kept l c) (call ev f).
Proof.
  intros Hf st Hc. specialize (Hf (mem st) Hc). unfold call.
  by destruct (f (mem st)).
Qed.

(** ** Provider failure *)

Section ProviderFailure.
Context `{Host}.

(** C7.  When the context has been shown and the provider the driver chose
    raises (an error, or the cancellation of the wait), [get_response] raises
    that exception and returns no response; the first step of the sequence of
    [stream_response] raises it and yields no event, and the sequence is
    closed; the provider has been called once. *)
Theorem provider_failure_propagates (self : ManualModel) (args : CallArgs)
    (st st1 : State) (e : Exn) (m2 : Mem) :
  model_context self args st = Returned tt st1 ->
  chosen_provider (_response_provider self) (mem st1) = Raised e m2 ->
  get_response self args st = Raised e (mkState m2 (trace st1 ++ [EvProvider]))
  /\ anext (mkGen self args GenCreated) st
     = (Threw e, mkGen self args GenClosed, mkState m2 (trace st1 ++ [EvProvider]))
  /\ (forall fuel : nat,
        (1 <= fuel)%nat ->
        async_for fuel (mkGen self args GenCreated) [] st
        = Some (Raised e (mkState m2 (trace st1 ++ [EvProvider]))))
  /\ provider_calls (trace st1 ++ [EvProvider]) = S (provider_calls (trace st)).
Proof.
  intros Hctx Hask.
  assert (Hrun : manual_prompt_interaction
                   (system_instructions args) (input args) (tools args) (handoffs args)
                   (prompt args) (_print_fn self) (_response_provider self) st
                 = Raised e (mkState m2 (trace st1 ++ [EvProvider]))).
  { rewrite (interaction_after_context _ _ _ _ Hctx). unfold call. by rewrite Hask. }
  assert (Hstep : anext (mkGen self args GenCreated) st
                  = (Threw e, mkGen self args GenClosed,
                     mkState m2 (trace st1 ++ [EvProvider]))).
  { by rewrite anext_of_interaction, Hrun. }
  split; [by rewrite get_response_of_interaction, Hrun|].
  split; [exact Hstep|]. split.
  - intros [|fuel] Hfuel; [lia|]. cbn [async_for]. by rewrite Hstep.
  - assert (Hshown : printed_more st st1).
    { pose proof (show_context_keeps printed_more
                    (system_instructions args) (input args) (tools args) (handoffs args)
                    (prompt args) (_print_fn self)
                    (lift_printed_more _) (say_printed_more _) st) as Hk.
      unfold model_context in Hctx. by rewrite Hctx in Hk. }
    rewrite <- (printed_more_provider_calls _ _ Hshown).
    unfold provider_calls. rewrite omap_app, length_app. simpl. lia.
Qed.
End ProviderFailure.

Lemma provider_failure_test :
  @get_response spec_host test_cancelled_model test_stream_args test_stream_state
  = Raised CancelledError
           (mkState (mem test_cancelled_shown) (trace test_cancelled_shown ++ [EvProvider]))
  /\ @anext spec_host (mkGen test_cancelled_model test_stream_args GenCreated)
            test_stream_state
     = (Threw CancelledError, mkGen test_cancelled_model test_stream_args GenClosed,
        mkState (mem test_cancelled_shown) (trace test_cancelled_shown ++ [EvProvider]))
  /\ (forall fuel : nat,
        (1 <= fuel)%nat ->
        @async_for spec_host fuel (mkGen test_cancelled_model test_stream_args GenCreated)
                   [] test_stream_state
        = Some (Raised CancelledError
                  (mkState (mem test_cancelled_shown)
                           (trace test_cancelled_shown ++ [EvProvider]))))
  /\ provider_calls (trace test_cancelled_shown ++ [EvProvider])
     = S (provider_calls (trace test_stream_state)).
Proof.
  apply (provider_failure_propagates (H := spec_host) test_cancelled_model
           test_stream_args test_stream_state test_cancelled_shown);
    vm_compute; reflexivity.
Defined.

(** ** The caller's input *)

Lemma normalization_leaves_cell (l : loc) (c : Cell) (inp : Input) :
  leaves_cell l c (ItemHelpers_input_to_new_input_list inp).
Proof.
  intros m Hc. pose proof (lookup_lt_Some _ _ _ Hc) as Hlt.
  unfold ItemHelpers_input_to_new_input_list.
  destruct inp as [s|l0]; simpl.
  - rewrite lookup_app_l by (rewrite length_app; lia).
    by rewrite lookup_app_l.
  - destruct (heap m !! l0) as [[items|entries]|]; simpl; [|exact Hc..].
    by rewrite lookup_app_l.
Qed.

Lemma normalization_allocates (inp : Input) (m m1 : Mem) (l' : loc) :
  ItemHelpers_input_to_new_input_list inp m = Returned l' m1 ->
  heap m !! l' = None /\ is_Some (heap m1 !! l').
Proof.
  unfold ItemHelpers_input_to_new_input_list.
  destruct inp as [s|l0].
  - intros Hr. inversion Hr; subst; clear Hr. simpl. split.
    + apply lookup_ge_None. lia.
    + apply lookup_lt_is_Some. rewrite !length_app. simpl. lia.
  - destruct (heap m !! l0) as [[items|entries]|]; intros Hr; inversion Hr; subst.
    simpl. split.
    + by apply lookup_ge_None.
    + apply lookup_lt_is_Some. rewrite length_app. simpl. lia.
Qed.

Lemma list_append_leaves (printed_at l : loc) (c : Cell) (line : string) :
  printed_at <> l -> leaves_cell l c (list_append printed_at line).
Proof.
  intros Hne m Hc. unfold list_append.
  destruct (heap m !! printed_at) as [[lines|entries]|]; simpl; [|exact Hc..].
  by rewrite list_lookup_insert_ne.
Qed.

Lemma pop_response_leaves (responses l : loc) (c : Cell) :
  responses <> l -> leaves_cell l c (pop_response responses).
Proof.
  intros Hne m Hc. unfold pop_response.
  destruct (heap m !! responses) as [[[|[reply|r] rest]|entries]|]; simpl;
    [exact Hc| |exact Hc..].
  by rewrite list_lookup_insert_ne.
Qed.

(** C8.  With the host's normalization, which builds a new list and writes
    to nothing that is there, an object that is in the store when either
    operation is called (the list the caller passed as input, an item of it)
    is unchanged when the operation ends, however it ends, as long as the
    caller's own [print_fn] and provider leave it as it is; and the sequence
    that normalization returns is a new object, not the caller's. *)
Theorem input_not_mutated (dump : list Cell -> loc -> string) (self : ManualModel)
    (args : CallArgs) (st : State) (l : loc) (c : Cell) :
  heap (mem st) !! l = Some c ->
  (forall line, leaves_cell l c (_print_fn self line)) ->
  leaves_cell l c (chosen_provider (_response_provider self)) ->
  heap (mem (final (@get_response (spec_host_with dump) self args st))) !! l = Some c
  /\ heap (mem (snd (@anext (spec_host_with dump) (mkGen self args GenCreated) st))) !! l
     = Some c
  /\ (forall (l' : loc) (m1 : Mem),
        ItemHelpers_input_to_new_input_list (input args) (mem st) = Returned l' m1 ->
        heap (mem st) !! l' = None /\ is_Some (heap m1 !! l') /\ heap m1 !! l = Some c).
Proof.
  intros Hc Hprint Hask.
  destruct (operations_keep (cell_kept l c) (H := spec_host_with dump) self args st)
    as [Hget Hnext].
  - apply lift_cell_kept, normalization_leaves_cell.
  - intros line. apply call_cell_kept, Hprint.
  - by apply call_cell_kept.
  - split; [exact (Hget Hc)|]. split; [exact (Hnext Hc)|].
    intros l' m1 Hnorm.
    destruct (normalization_allocates _ _ _ _ Hnorm) as [Hnew Hthere].
    split; [exact Hnew|]. split; [exact Hthere|].
    pose proof (normalization_leaves_cell l c (input args) (mem st) Hc) as Hkept.
    by rewrite Hnorm in Hkept.
Qed.

Lemma input_not_mutated_test :
  heap (mem (final (@get_response (spec_host_with pformat_line) test_model
                      test_stream_args test_stream_state))) !! 3%nat
  = Some (CList [HRef 2%nat])
  /\ heap (mem (snd (@anext (spec_host_with pformat_line)
                       (mkGen test_model test_stream_args GenCreated)
                       test_stream_state))) !! 3%nat
     = Some (CList [HRef 2%nat])
  /\ (forall (l' : loc) (m1 : Mem),
        ItemHelpers_input_to_new_input_list (input test_stream_args)
          (mem test_stream_state) = Returned l' m1 ->
        heap (mem test_stream_state) !! l' = None /\ is_Some (heap m1 !! l')
        /\ heap m1 !! 3%nat = Some (CList [HRef 2%nat])).
Proof.
  apply (input_not_mutated pformat_line test_model test_stream_args test_stream_state
           3%nat (CList [HRef 2%nat])).
  - vm_compute; reflexivity.
  - intros line. apply list_append_leaves. discriminate.
  - apply pop_response_leaves. discriminate.
Defined.

(** * Further properties of the code *)

(** ** The formatters on longer lists *)

Lemma format_handoff_step_line (formatted : list string) (handoff : PyObject) :
  format_handoff_step formatted handoff
  = res_bind (handoff_line handoff) (fun line => Val (formatted ++ [line])).
Proof.
  unfold format_handoff_step, handoff_line, first_missing_attribute,
    handoff_display_line, field_text, getattr.
  destruct (attrs handoff !! "tool_description") as [d|]; [|reflexivity].
  destruct (attrs handoff !! "agent_name") as [a|];
    [|simpl; by destruct (truthy d)].
  destruct (attrs handoff !! "tool_name") as [t|];
    [|simpl; by destruct (truthy d)].
  simpl. destruct d as [|s]; simpl; [reflexivity|].
  by destruct (String.eqb s "").
Qed.

Lemma foldl_handoffs_lines (handoffs : list PyObject) (formatted : list string) :
  foldl (fun acc handoff => res_bind acc (fun formatted => format_handoff_step formatted handoff))
        (Val formatted) handoffs
  = res_bind (_format_handoffs handoffs) (fun lines => Val (formatted ++ lines)).
Proof.
  unfold _format_handoffs. revert formatted.
  induction handoffs as [|handoff handoffs IH]; intros formatted; simpl.
  - by rewrite app_nil_r.
  - rewrite !format_handoff_step_line.
    destruct (handoff_line handoff) as [line|e]; simpl.
    + rewrite (IH (formatted ++ [line])), (IH [line]).
      destruct (foldl _ (Val []) handoffs) as [lines|e]; simpl; [|reflexivity].
      by rewrite <- app_assoc.
    + by rewrite !foldl_handoffs_err.
Qed.

Lemma first_missing_complete (handoff : PyObject) :
  handoff_complete handoff = true <-> first_missing_attribute handoff = None.
Proof.
  unfold handoff_complete, first_missing_attribute.
  destruct (attrs handoff !! "tool_description"), (attrs handoff !! "agent_name"),
    (attrs handoff !! "tool_name"); simpl; split; intros Hc; try discriminate;
    try reflexivity.
Qed.

(** X1.  [_format_handoffs] stops at the first handoff that lacks an
    attribute: it raises [AttributeError] for that object and for the first
    attribute it lacks, in the order tool_description, agent_name, tool_name,
    and the lines of the handoffs before it are not returned. *)
Theorem format_handoffs_first_failure (good : list PyObject) (bad : PyObject)
    (rest : list PyObject) (attr : string) :
  forallb handoff_complete good = true ->
  first_missing_attribute bad = Some attr ->
  _format_handoffs (good ++ bad :: rest) = Err (AttributeError (class_name bad) attr).
Proof.
  intros Hgood Hbad. unfold _format_handoffs.
  rewrite foldl_app, (foldl_handoffs_complete _ _ Hgood). simpl.
  rewrite format_handoff_step_line. unfold handoff_line. rewrite Hbad. simpl.
  apply foldl_handoffs_err.
Qed.

Lemma format_handoffs_first_failure_test :
  _format_handoffs ([test_handoff] ++ handoff_without_agent_name
                                   :: [handoff_without_description])
  = Err (AttributeError (class_name handoff_without_agent_name) "agent_name").
Proof.
  apply format_handoffs_first_failure; vm_compute; reflexivity.
Defined.

(** X2.  Formatting the tools of two lists put end to end gives the lines of
    the first followed by the lines of the second. *)
Theorem format_tools_app (tools1 tools2 : list PyObject) :
  _format_tools (tools1 ++ tools2) = _format_tools tools1 ++ _format_tools tools2.
Proof.
  unfold _format_tools.
  by rewrite foldl_app, !foldl_format_tool_step.
Qed.

(** X3.  Formatting the handoffs of two lists put end to end formats the
    first, then the second, and joins the lines; an exception of the first
    list comes before one of the second, and either leaves no lines. *)
Theorem format_handoffs_app (handoffs1 handoffs2 : list PyObject) :
  _format_handoffs (handoffs1 ++ handoffs2)
  = res_bind (_format_handoffs handoffs1) (fun lines1 =>
    res_bind (_format_handoffs handoffs2) (fun lines2 =>
    Val (lines1 ++ lines2))).
Proof.
  unfold _format_handoffs at 1. rewrite foldl_app.
  fold (_format_handoffs handoffs1).
  destruct (_format_handoffs handoffs1) as [lines1|e]; simpl.
  - apply foldl_handoffs_lines.
  - apply foldl_handoffs_err.
Qed.

(** ** Every outcome of a call *)

Section EveryOutcome.
Context `{Host}.

Lemma model_context_printed_more (self : ManualModel) (args : CallArgs) (st : State) :
  printed_more st (final (model_context self args st)).
Proof.
  apply (show_context_keeps printed_more); [apply lift_printed_more|].
  intros line. apply say_printed_more.
Qed.

(** X4.  When showing the context fails (print_fn raises, or a handoff lacks
    an attribute), both operations raise that exception in the state the
    failure left; only lines were handed out until then, and the provider is
    not called. *)
Theorem context_failure_skips_provider (self : ManualModel) (args : CallArgs)
    (st st1 : State) (e : Exn) :
  model_context self args st = Raised e st1 ->
  get_response self args st = Raised e st1
  /\ anext (mkGen self args GenCreated) st = (Threw e, mkGen self args GenClosed, st1)
  /\ (exists lines, trace st1 = trace st ++ map EvPrint lines)
  /\ provider_calls (trace st1) = provider_calls (trace st).
Proof.
  intros Hctx.
  pose proof (interaction_context_raised _ _ _ _ _ Hctx) as Hrun.
  pose proof (model_context_printed_more self args st) as Hmore.
  rewrite Hctx in Hmore. simpl in Hmore.
  rewrite get_response_of_interaction, anext_of_interaction, Hrun.
  repeat split; [exact Hmore|by apply printed_more_provider_calls].
Qed.

(** X5.  Whatever the callbacks do, the history of a call of [get_response]
    is a run of lines handed to [print_fn], followed by at most one call of
    the provider, which comes last; when [get_response] returns, the provider
    was called, once. *)
Theorem provider_called_last (self : ManualModel) (args : CallArgs) (st : State) :
  exists lines,
    (trace (final (get_response self args st)) = trace st ++ map EvPrint lines
     \/ trace (final (get_response self args st))
        = trace st ++ map EvPrint lines ++ [EvProvider])
    /\ (forall response st',
          get_response self args st = Returned response st' ->
          trace st' = trace st ++ map EvPrint lines ++ [EvProvider]
          /\ provider_calls (trace st') = S (provider_calls (trace st))).
Proof.
  pose proof (model_context_printed_more self args st) as Hmore.
  rewrite get_response_of_interaction.
  destruct (model_context self args st) as [[] st1|e st1] eqn:Hctx.
  - destruct Hmore as [lines Hlines]. simpl in Hlines. exists lines.
    rewrite (interaction_after_context _ _ _ _ Hctx).
    pose proof (call_trace EvProvider (chosen_provider (_response_provider self)) st1)
      as Hask.
    rewrite Hlines, <- app_assoc in Hask.
    destruct (call EvProvider _ st1) as [text st2|e st2]; simpl in *.
    + split; [by right|]. intros response st' Hr. inversion Hr; subst; clear Hr.
      split; [exact Hask|]. rewrite Hask. unfold provider_calls.
      rewrite !omap_app, !length_app. simpl.
      pose proof (printed_more_provider_calls st (mkState (mem st) (trace st ++ map EvPrint lines))
                    (ex_intro _ lines eq_refl)) as Hcount.
      unfold provider_calls in Hcount. simpl in Hcount.
      rewrite omap_app, length_app in Hcount. lia.
    + split; [by right|]. intros response st' Hr. discriminate Hr.
  - destruct Hmore as [lines Hlines]. simpl in Hlines. exists lines.
    rewrite (interaction_context_raised _ _ _ _ _ Hctx). simpl.
    split; [by left|]. intros response st' Hr. discriminate Hr.
Qed.

(** X6.  The two operations share one interaction: from the same state,
    [get_response] and the first step of the sequence of [stream_response]
    end in the same state; one returns exactly when the other yields, with
    the same message and the same response id; one raises exactly when the
    other does, the same exception. *)
Theorem operations_agree (self : ManualModel) (args : CallArgs) (st : State) :
  final (get_response self args st) = snd (anext (mkGen self args GenCreated) st)
  /\ match get_response self args st, fst (fst (anext (mkGen self args GenCreated) st)) with
     | Returned response _, Yielded event =>
         Response.output (ResponseCompletedEvent.response event)
           = ModelResponse.output response
         /\ Some (Response.id (ResponseCompletedEvent.response event))
            = ModelResponse.response_id response
     | Raised e _, Threw e' => e = e'
     | _, _ => False
     end.
Proof.
  rewrite get_response_of_interaction, anext_of_interaction.
  by destruct (manual_prompt_interaction _ _ _ _ _ _ _ st).
Qed.

(** X7.  A sequence that has taken a step is spent: whatever the step gave,
    iterating the sequence after it gives no event and changes nothing (no
    line is printed, the provider is not called again). *)
Theorem stepped_generator_is_spent (gen : AsyncGen) (st : State) :
  gen_state (snd (fst (anext gen st))) <> GenCreated
  /\ (forall (st2 : State) (fuel : nat),
        (1 <= fuel)%nat ->
        async_for fuel (snd (fst (anext gen st))) [] st2 = Some (Returned [] st2)).
Proof.
  destruct gen as [self args state].
  assert (Hspent : forall s, s <> GenCreated ->
            forall (st2 : State) (fuel : nat), (1 <= fuel)%nat ->
              async_for fuel (mkGen self args s) [] st2 = Some (Returned [] st2)).
  { intros s Hs st2 [|fuel] Hfuel; [lia|]. by destruct s. }
  destruct state.
  - rewrite anext_of_interaction.
    destruct (manual_prompt_interaction _ _ _ _ _ _ _ st); simpl;
      (split; [discriminate|by apply Hspent]).
  - simpl. split; [discriminate|by apply Hspent].
  - simpl. split; [discriminate|by apply Hspent].
Qed.
End EveryOutcome.

Lemma context_failure_skips_provider_test :
  @get_response spec_host test_broken_print_model test_stream_args test_stream_state
  = Raised (AttributeError "object" "append") test_broken_print_shown
  /\ @anext spec_host (mkGen test_broken_print_model test_stream_args GenCreated)
            test_stream_state
     = (Threw (AttributeError "object" "append"),
        mkGen test_broken_print_model test_stream_args GenClosed, test_broken_print_shown)
  /\ (exists lines,
        trace test_broken_print_shown = trace test_stream_state ++ map EvPrint lines)
  /\ provider_calls (trace test_broken_print_shown)
     = provider_calls (trace test_stream_state).
Proof.
  apply (context_failure_skips_provider (H := spec_host)).
  vm_compute; reflexivity.
Defined.

(** ** Failures while the context is shown *)

Section ContextFailures.
Context `{Host}.
Variable Inv : Mem -> Prop.
Variable print_fn : string -> Callback unit.
Hypothesis print_returns : returns_under Inv print_fn.

Local Abbreviation say := (call_print_fn print_fn).
Local Abbreviation say_ok := (prints_say Inv print_fn print_returns).

Lemma prints_then_raised (c1 c2 : M unit) (st st1 st2 : State) (l1 : list string)
    (e : Exn) :
  prints Inv print_fn c1 st l1 st1 -> c2 st1 = Raised e st2 ->
  (c1 ;; c2) st = Raised e st2.
Proof. intros (Hc1 & _) Hc2. by rewrite (bind_returned _ _ _ _ _ Hc1). Qed.

(** X8.  When a handoff lacks an attribute (and the input normalizes and
    print_fn returns), the driver prints every section up to the label
    "Available handoffs:" and then raises: no handoff line is printed, not
    even for the handoffs that are complete, nor the trailer, and the
    provider is not called. *)
Theorem malformed_handoffs_abort (si : option string) (inp : Input)
    (tls hds : list PyObject) (pr : option loc) (rp : option (Callback string))
    (st : State) (l : loc) (m1 : Mem) (e : Exn) :
  input_to_new_input_list inp (mem st) = Returned l m1 ->
  Inv m1 ->
  _format_handoffs hds = Err e ->
  exists h_items h_prompt st',
    manual_prompt_interaction si inp tls hds pr print_fn rp st = Raised e st'
    /\ trace st'
       = trace st
         ++ map EvPrint
              (["=== Manual model interaction ==="]
               ++ instructions_section si
               ++ items_section (pformat h_items l)
               ++ prompt_section (pformat h_prompt <$> pr)
               ++ tools_section tls
               ++ ["Available handoffs:"]).
Proof.
  intros Hnorm Hinv Hfmt.
  destruct hds as [|handoff hds]; [discriminate Hfmt|].
  set (st0 := mkState m1 (trace st)).
  destruct (say_ok "=== Manual model interaction ===" st0 Hinv) as [sa Ha].
  destruct (prints_instructions Inv print_fn print_returns si sa
              (prints_inv _ _ _ _ _ _ Ha)) as [sb Hb].
  destruct (say_ok "Conversation items:" sb (prints_inv _ _ _ _ _ _ Hb)) as [sc Hc].
  destruct (prints_dump Inv print_fn print_returns l sc (prints_inv _ _ _ _ _ _ Hc))
    as [sd Hd].
  destruct (prints_prompt Inv print_fn print_returns pr sd (prints_inv _ _ _ _ _ _ Hd))
    as (h_prompt & se & He & _).
  destruct (prints_tools Inv print_fn print_returns tls se (prints_inv _ _ _ _ _ _ He))
    as [sf Hf].
  destruct (say_ok "Available handoffs:" sf (prints_inv _ _ _ _ _ _ Hf)) as [sg Hg].
  exists (heap (mem sc)), h_prompt, sg. split.
  - rewrite interaction_split. apply bind_raised.
    unfold show_context. rewrite (bind_returned _ _ _ _ _ (lift_returned _ _ _ _ Hnorm)).
    refine (prints_then_raised _ _ _ _ _ _ _ Ha _).
    refine (prints_then_raised _ _ _ _ _ _ _ Hb _).
    refine (prints_then_raised _ _ _ _ _ _ _ Hc _).
    refine (prints_then_raised _ _ _ _ _ _ _ Hd _).
    refine (prints_then_raised _ _ _ _ _ _ _ He _).
    refine (prints_then_raised _ _ _ _ _ _ _ Hf _).
    apply bind_raised.
    refine (prints_then_raised _ _ _ _ _ _ _ Hg _).
    apply bind_raised. by rewrite Hfmt.
  - pose proof (prints_seq _ _ _ _ _ _ _ _ _ Ha
                 (prints_seq _ _ _ _ _ _ _ _ _ Hb
                   (prints_seq _ _ _ _ _ _ _ _ _ Hc
                     (prints_seq _ _ _ _ _ _ _ _ _ Hd
                       (prints_seq _ _ _ _ _ _ _ _ _ He
                         (prints_seq _ _ _ _ _ _ _ _ _ Hf Hg))))))
      as (_ & Htrace & _).
    exact Htrace.
Qed.
End ContextFailures.

Lemma malformed_handoffs_abort_test :
  exists h_items h_prompt st',
    @manual_prompt_interaction spec_host None (InList 3%nat) []
      [test_handoff; handoff_without_agent_name] None (list_append 0%nat)
      (Some (pop_response 1%nat)) test_stream_state
    = Raised (AttributeError "Handoff" "agent_name") st'
    /\ trace st'
       = trace test_stream_state
         ++ map EvPrint
              (["=== Manual model interaction ==="]
               ++ instructions_section None
               ++ items_section (pformat_line h_items 4%nat)
               ++ prompt_section (pformat_line h_prompt <$> None)
               ++ tools_section []
               ++ ["Available handoffs:"]).
Proof.
  apply (malformed_handoffs_abort (H := spec_host)
           (fun m => exists lines, heap m !! 0%nat = Some (CList lines))
           (list_append 0%nat) (list_append_returns 0%nat) None (InList 3%nat) []
           [test_handoff; handoff_without_agent_name] None (Some (pop_response 1%nat))
           test_stream_state 4%nat
           (final (ItemHelpers_input_to_new_input_list (InList 3%nat)
                     (mem test_stream_state)))).
  - vm_compute; reflexivity.
  - eexists. vm_compute; reflexivity.
  - vm_compute; reflexivity.
Defined.

(** ** The first line *)

#[export] Instance history_grows_preorder : PreOrder history_grows.
Proof.
  split.
  - intros st. exists []. by rewrite app_nil_r.
  - intros st1 st2 st3 [e1 H1] [e2 H2]. exists (e1 ++ e2).
    by rewrite H2, H1, app_assoc.
Qed.

Lemma lift_history_grows {A : Type} (f : Callback A) : keeps history_grows (lift f).
Proof.
  intros st. exists []. unfold lift. destruct (f (mem st)); simpl; by rewrite app_nil_r.
Qed.

Lemma call_history_grows {A : Type} (ev : Event) (f : Callback A) :
  keeps history_grows (call ev f).
Proof. intros st. exists [ev]. apply call_trace. Qed.

(** The pieces of the driver, one after the other. *)
Ltac keeps_blocks :=
  repeat first
    [ apply (keeps_bind history_grows); [|intros ?]
    | apply call_history_grows
    | apply (keeps_get_heap history_grows)
    | apply (keeps_ret history_grows)
    | apply (keeps_lift_res history_grows)
    | apply (keeps_for_each history_grows); intros ?
    | match goal with
      | |- keeps _ (if ?b then _ else _) => destruct b
      | |- keeps _ (match ?x with _ => _ end) => destruct x
      end ].

Section FirstLine.
Context `{Host}.

(** X9.  Once the input has normalized, the first thing the driver does is
    hand the header line to [print_fn], whatever [print_fn] and the provider
    then do and however the call ends. *)
Theorem header_comes_first (si : option string) (inp : Input) (tls hds : list PyObject)
    (pr : option loc) (print_fn : string -> Callback unit)
    (rp : option (Callback string)) (st : State) (l : loc) (m1 : Mem) :
  input_to_new_input_list inp (mem st) = Returned l m1 ->
  exists events,
    trace (final (manual_prompt_interaction si inp tls hds pr print_fn rp st))
    = trace st ++ EvPrint "=== Manual model interaction ===" :: events.
Proof.
  intros Hnorm. unfold manual_prompt_interaction. cbv zeta.
  rewrite (bind_returned _ _ _ _ _ (lift_returned _ _ _ _ Hnorm)).
  set (st0 := mkState m1 (trace st)).
  match goal with
  | |- context [(call_print_fn print_fn ?line ≫= ?k) st0] =>
      set (rest := k);
      assert (Hrest : forall u, keeps history_grows (rest u))
  end.
  { intros u. subst rest. cbv beta. unfold call_print_fn. keeps_blocks. }
  unfold mbind at 1, M_bind at 1.
  pose proof (call_trace (EvPrint "=== Manual model interaction ===")
                (print_fn "=== Manual model interaction ===") st0) as Hfirst.
  unfold call_print_fn at 1.
  destruct (call _ _ st0) as [u s1|e s1]; simpl in Hfirst.
  - destruct (Hrest u s1) as [events Hevents]. exists events.
    rewrite Hevents, Hfirst. simpl. by rewrite <- app_assoc.
  - exists []. exact Hfirst.
Qed.
End FirstLine.

Lemma header_comes_first_test :
  exists events,
    trace (final (@manual_prompt_interaction spec_host None (InList 3%nat) [] [] None
                    (list_append 2%nat) (Some (pop_response 1%nat)) test_stream_state))
    = trace test_stream_state ++ EvPrint "=== Manual model interaction ===" :: events.
Proof.
  apply (header_comes_first (H := spec_host) None (InList 3%nat) [] [] None
           (list_append 2%nat) (Some (pop_response 1%nat)) test_stream_state 4%nat
           (final (ItemHelpers_input_to_new_input_list (InList 3%nat)
                     (mem test_stream_state)))).
  vm_compute; reflexivity.
Defined.

(** ** The defaults: the console *)

Section DefaultProvider.
Context `{Host}.

Lemma default_provider_run (self : ManualModel) (args : CallArgs) (st st1 : State) :
  _response_provider self = None ->
  model_context self args st = Returned tt st1 ->
  get_response self args st
  = match stdin (mem st1) with
    | reply :: rest =>
        Returned
          (ModelResponse.make [_build_output_message reply] Usage.new (Some _RESPONSE_ID))
          (mkState (mkMem (heap (mem st1)) rest
                          (stdout (mem st1) ++ ["Manual response: "]))
                   (trace st1 ++ [EvProvider]))
    | [] =>
        Raised EOFError
          (mkState (mkMem (heap (mem st1)) []
                          (stdout (mem st1) ++ ["Manual response: "]))
                   (trace st1 ++ [EvProvider]))
    end.
Proof.
  intros Hnone Hctx.
  rewrite get_response_of_interaction, (interaction_after_context _ _ _ _ Hctx), Hnone.
  unfold call, chosen_provider, _default_response_provider, py_input. simpl.
  by destruct (stdin (mem st1)).
Qed.

(** X10.  A model built without a provider reads the reply from standard
    input once the context is shown: it writes the prompt "Manual response: "
    to standard output, takes the next line as the reply, text for text, and
    leaves the lines after it; with no line left it raises [EOFError], the
    prompt written all the same. *)
Theorem default_provider_reads_stdin (self : ManualModel) (args : CallArgs)
    (st st1 : State) :
  _response_provider self = None ->
  model_context self args st = Returned tt st1 ->
  get_response self args st
  = match stdin (mem st1) with
    | reply :: rest =>
        Returned
          (ModelResponse.make [_build_output_message reply] Usage.new (Some _RESPONSE_ID))
          (mkState (mkMem (heap (mem st1)) rest
                          (stdout (mem st1) ++ ["Manual response: "]))
                   (trace st1 ++ [EvProvider]))
    | [] =>
        Raised EOFError
          (mkState (mkMem (heap (mem st1)) []
                          (stdout (mem st1) ++ ["Manual response: "]))
                   (trace st1 ++ [EvProvider]))
    end
  /\ anext (mkGen self args GenCreated) st
     = match stdin (mem st1) with
       | reply :: rest =>
           (Yielded (_build_completed_event (_build_output_message reply) Usage.new),
            mkGen self args GenSuspended,
            mkState (mkMem (heap (mem st1)) rest
                           (stdout (mem st1) ++ ["Manual response: "]))
                    (trace st1 ++ [EvProvider]))
       | [] =>
           (Threw EOFError, mkGen self args GenClosed,
            mkState (mkMem (heap (mem st1)) []
                           (stdout (mem st1) ++ ["Manual response: "]))
                    (trace st1 ++ [EvProvider]))
       end.
Proof.
  intros Hnone Hctx. split; [by apply default_provider_run|].
  rewrite anext_of_interaction, (interaction_after_context _ _ _ _ Hctx), Hnone.
  unfold call, chosen_provider, _default_response_provider, py_input. simpl.
  by destruct (stdin (mem st1)).
Qed.
End DefaultProvider.

Lemma default_provider_reads_stdin_test :
  @get_response spec_host (ManualModel_init None None) test_console_args test_console_state
  = Returned
      (ModelResponse.make [_build_output_message "Typed reply"] Usage.new
                          (Some _RESPONSE_ID))
      (mkState (mkMem (heap (mem test_console_shown)) []
                      (stdout (mem test_console_shown) ++ ["Manual response: "]))
               (trace test_console_shown ++ [EvProvider]))
  /\ @anext spec_host (mkGen (ManualModel_init None None) test_console_args GenCreated)
            test_console_state
     = (Yielded (_build_completed_event (_build_output_message "Typed reply") Usage.new),
        mkGen (ManualModel_init None None) test_console_args GenSuspended,
        mkState (mkMem (heap (mem test_console_shown)) []
                       (stdout (mem test_console_shown) ++ ["Manual response: "]))
                (trace test_console_shown ++ [EvProvider])).
Proof.
  apply (default_provider_reads_stdin (H := spec_host) (ManualModel_init None None)
           test_console_args test_console_state test_console_shown);
    vm_compute; reflexivity.
Defined.

#[export] Instance on_console_preorder : PreOrder on_console.
Proof.
  split.
  - intros st. exists []. simpl. by rewrite !app_nil_r.
  - intros st1 st2 st3 (l1 & Ht1 & Ho1 & Hi1) (l2 & Ht2 & Ho2 & Hi2). exists (l1 ++ l2).
    rewrite Ht2, Ht1, Ho2, Ho1, Hi2, Hi1, !map_app, !app_assoc. by repeat split.
Qed.

Lemma print_on_console (line : string) : keeps on_console (call_print_fn py_print line).
Proof. intros st. exists [line]. simpl. by repeat split. Qed.

Lemma lift_on_console {A : Type} (f : Callback A) :
  leaves_console f -> keeps on_console (lift f).
Proof.
  intros Hf st. destruct (Hf (mem st)) as [Hin Hout]. exists []. unfold lift.
  destruct (f (mem st)); simpl in *; by rewrite !app_nil_r.
Qed.

Lemma py_print_returns : returns_under (fun _ => True) py_print.
Proof. intros line m _. by eexists. Qed.

Lemma py_print_heap_quiet : heap_quiet py_print.
Proof. by intros line m. Qed.

Lemma normalization_leaves_console (inp : Input) :
  leaves_console (ItemHelpers_input_to_new_input_list inp).
Proof.
  intros m. unfold ItemHelpers_input_to_new_input_list.
  destruct inp as [s|l]; [done|].
  by destruct (heap m !! l) as [[items|entries]|].
Qed.

Section Console.
Context `{Host}.

(** X11.  A model built with no argument converses over the console.  When
    the input normalizes without touching the console, the handoffs carry
    their attributes and a line waits on standard input, [get_response]
    writes the transcript to standard output, one line each, the dumps being
    of the store as normalization left it, then the prompt
    "Manual response: ", and returns the waiting line as the reply; the lines
    after it stay on standard input. *)
Theorem console_conversation (args : CallArgs) (st : State) (l : loc) (m1 : Mem)
    (hlines : list string) (reply : string) (rest : list string) :
  leaves_console (input_to_new_input_list (input args)) ->
  input_to_new_input_list (input args) (mem st) = Returned l m1 ->
  _format_handoffs (handoffs args) = Val hlines ->
  stdin (mem st) = reply :: rest ->
  exists st',
    get_response (ManualModel_init None None) args st
    = Returned
        (ModelResponse.make [_build_output_message reply] Usage.new (Some _RESPONSE_ID)) st'
    /\ stdout (mem st')
       = stdout (mem st)
         ++ map console_line
              (transcript (system_instructions args) (pformat (heap m1) l)
                 (pformat (heap m1) <$> prompt args) (tools args) (handoffs args) hlines)
         ++ ["Manual response: "]
    /\ stdin (mem st') = rest
    /\ heap (mem st') = heap m1.
Proof.
  intros Hquiet Hnorm Hfmt Hin.
  set (self := ManualModel_init None None).
  destruct (show_context_prints (fun _ => True) py_print py_print_returns
              (system_instructions args) (input args) (tools args) (handoffs args)
              (prompt args) st l m1 hlines Hnorm I Hfmt)
    as (h_items & h_prompt & st1 & Hctx & Htrace & Hheap).
  destruct (Hheap py_print_heap_quiet) as (-> & -> & Hh1).
  pose proof (show_context_keeps on_console
                (system_instructions args) (input args) (tools args) (handoffs args)
                (prompt args) py_print (lift_on_console _ Hquiet) print_on_console st)
    as Hcons.
  rewrite Hctx in Hcons. destruct Hcons as (lines & Hlines & Hout & Hin1).
  simpl in Hlines, Hout, Hin1.
  assert (Hsame : lines = transcript (system_instructions args) (pformat (heap m1) l)
                            (pformat (heap m1) <$> prompt args) (tools args)
                            (handoffs args) hlines).
  { rewrite Htrace in Hlines. apply app_inv_head in Hlines.
    apply (f_equal printed) in Hlines.
    by rewrite <- (app_nil_l (map EvPrint _)), printed_prints,
         <- (app_nil_l (map EvPrint lines)), printed_prints in Hlines. }
  subst lines.
  pose proof (default_provider_run self args st st1 eq_refl Hctx) as Hrun.
  rewrite Hin1, Hin in Hrun.
  eexists. split; [exact Hrun|]. simpl.
  split; [by rewrite Hout, <- app_assoc|]. by split.
Qed.
End Console.

Lemma console_conversation_test :
  exists st',
    @get_response spec_host (ManualModel_init None None) test_console_args
                  test_console_state
    = Returned
        (ModelResponse.make [_build_output_message "Typed reply"] Usage.new
                            (Some _RESPONSE_ID)) st'
    /\ stdout (mem st')
       = stdout (mem test_console_state)
         ++ map console_line
              (transcript None
                 (pformat_line
                    (heap (final (ItemHelpers_input_to_new_input_list (InList 1%nat)
                                    (mem test_console_state)))) 2%nat)
                 (pformat_line
                    (heap (final (ItemHelpers_input_to_new_input_list (InList 1%nat)
                                    (mem test_console_state)))) <$> None)
                 [test_tool] [] [])
         ++ ["Manual response: "]
    /\ stdin (mem st') = []
    /\ heap (mem st')
       = heap (final (ItemHelpers_input_to_new_input_list (InList 1%nat)
                        (mem test_console_state))).
Proof.
  apply (console_conversation (H := spec_host) test_console_args test_console_state
           2%nat
           (final (ItemHelpers_input_to_new_input_list (InList 1%nat)
                     (mem test_console_state)))
           [] "Typed reply" []).
  - apply normalization_leaves_console.
  - vm_compute; reflexivity.
  - vm_compute; reflexivity.
  - vm_compute; reflexivity.
Defined.

Example console_transcript :
  stdout (mem (final (@get_response spec_host (ManualModel_init None None)
                        test_console_args test_console_state)))
  = map console_line
      ["=== Manual model interaction ==="; "System instructions: <none>";
       "Conversation items:"; "[{'role': 'user', 'content': 'Ping'}]";
       "Available tools:"; "  - test_tool: A simple helper.";
       "Available handoffs: none"; "Provide the next assistant message."]
    ++ ["Manual response: "].
Proof. vm_compute. reflexivity. Qed.

(** ** The usage record *)

(** X12.  [_usage_to_response_usage] carries over the five token counters
    and nothing else: two usage records have the same conversion exactly when
    they agree on input, output and total tokens and on cached and reasoning
    tokens, whatever their request counts. *)
Theorem usage_conversion_keeps_counters (u1 u2 : Usage.t) :
  _usage_to_response_usage u1 = _usage_to_response_usage u2
  <-> Usage.input_tokens u1 = Usage.input_tokens u2
      /\ Usage.output_tokens u1 = Usage.output_tokens u2
      /\ Usage.total_tokens u1 = Usage.total_tokens u2
      /\ InputTokensDetails.cached_tokens (Usage.input_tokens_details u1)
         = InputTokensDetails.cached_tokens (Usage.input_tokens_details u2)
      /\ OutputTokensDetails.reasoning_tokens (Usage.output_tokens_details u1)
         = OutputTokensDetails.reasoning_tokens (Usage.output_tokens_details u2).
Proof.
  unfold _usage_to_response_usage. split.
  - intros Heq. inversion Heq. by repeat split.
  - intros (-> & -> & -> & -> & ->). reflexivity.
Qed.

(** ** Calls in a row *)

Section CallsInARow.
Context `{Host}.


End CallsInARow.

